(** * Veritium: the client's behaviour and the assessment engine's contract

    A shallow embedding of the TypeScript client under [frontend/src]
    (components [ScoreDisplay], [EvidenceSnippets], [Citations],
    [AssessmentPage], [FileUpload], [HomePage], [ClaimInput], [DoiInput],
    [UrlInput] and the API client [services/api.ts]) together with a
    model of the engine operations the
    client only consumes ([ensureShareId], confidence fusion, the evidence
    retriever).

    Conventions.
    - A JavaScript [number] holding a score is an IEEE-754 binary64 value:
      Rocq's primitive [float], compared with the primitive [<=?].
    - A JavaScript string is its sequence of UTF-16 code units ([list N]);
      [String.prototype.trim] and the regular-expression [.] are defined on
      code units, as ECMAScript defines them.
    - A handler is a function from the component's state and its argument
      to the list of effects it performs, in program order, up to its first
      [await]; what follows the [await] is a second function of the
      outcome. *)

From Stdlib Require Import ZArith NArith QArith List Bool Lia Lqa Floats.
From Stdlib Require Import Sorting.Sorted.
From stdpp Require Import base option gmap strings sorting.
Import ListNotations.

Set Warnings "-inexact-float".
Local Open Scope N_scope.

(** ** JavaScript strings *)

Module JS.

(** A string value: UTF-16 code units. *)
Definition jsstring := list N.

(** The code units of an ASCII literal of the source. *)
Definition lit (s : string) : jsstring :=
  map (fun a => N.of_nat (Ascii.nat_of_ascii a)) (String.list_ascii_of_string s).

(** ECMAScript [LineTerminator]: LF, CR, LS, PS. *)
Definition isLineTerminator (c : N) : bool :=
  (c =? 0x000A) || (c =? 0x000D) || (c =? 0x2028) || (c =? 0x2029).

(** ECMAScript [WhiteSpace]: TAB, VT, FF, ZWNBSP and the code points of
    general category Zs. *)
Definition isWhiteSpace (c : N) : bool :=
  (c =? 0x0009) || (c =? 0x000B) || (c =? 0x000C) || (c =? 0xFEFF)
  || (c =? 0x0020) || (c =? 0x00A0) || (c =? 0x1680)
  || ((0x2000 <=? c) && (c <=? 0x200A))
  || (c =? 0x202F) || (c =? 0x205F) || (c =? 0x3000).

(** What [trim] strips: white space and line terminators. *)
Definition isTrimmable (c : N) : bool := isWhiteSpace c || isLineTerminator c.

Fixpoint trimStart (s : jsstring) : jsstring :=
  match s with
  | c :: s' => if isTrimmable c then trimStart s' else s
  | [] => []
  end.

Definition trimEnd (s : jsstring) : jsstring := rev (trimStart (rev s)).

(** [String.prototype.trim]. *)
Definition trim (s : jsstring) : jsstring := trimEnd (trimStart s).

(** ToBoolean on a string: only the empty string is falsy. *)
Definition truthy (s : jsstring) : bool :=
  match s with [] => false | _ => true end.

(** [s.startsWith(p)], returning what follows the prefix. *)
Fixpoint stripPrefix (p s : jsstring) : option jsstring :=
  match p, s with
  | [], _ => Some s
  | a :: p', c :: s' => if a =? c then stripPrefix p' s' else None
  | _ :: _, [] => None
  end.

End JS.

(** ** components/ScoreDisplay.tsx and components/EvidenceSnippets.tsx *)

Module ScoreDisplay.

(** The three bands of the "Score Interpretation" legend. *)
Inductive Tier := High | Medium | Low.

(** JavaScript's [x >= y] and [x < y] on numbers: the IEEE-754
    comparisons, false as soon as an operand is NaN. *)
Definition geb (x y : float) : bool := PrimFloat.leb y x.
Definition ltb (x y : float) : bool := PrimFloat.ltb x y.
Notation "x >=? y" := (geb x y) (at level 70, no associativity) : float_scope.
Notation "x <<? y" := (ltb x y) (at level 70, no associativity) : float_scope.
Local Open Scope float_scope.

(** [ScoreBar]: the class of the bar,
    [score >= 0.7 ? 'bg-green-500' : score >= 0.4 ? 'bg-yellow-500' : 'bg-red-500']. *)
Definition scoreBarClass (score : float) : string :=
  if score >=? 0.7 then "bg-green-500"
  else if score >=? 0.4 then "bg-yellow-500"
  else "bg-red-500".

(** The legend: each dot's class with the band it is captioned with
    (High (70-100%), Medium (40-69%), Low (0-39%)). *)
Definition legend : list (string * Tier) :=
  [("bg-green-500", High); ("bg-yellow-500", Medium); ("bg-red-500", Low)].

(** [EvidenceSnippets]: the class of the similarity label,
    [similarity >= 0.7 ? 'text-green-600' : similarity >= 0.4 ? 'text-yellow-600' : 'text-red-600']. *)
Definition similarityClass (similarity : float) : string :=
  if similarity >=? 0.7 then "text-green-600"
  else if similarity >=? 0.4 then "text-yellow-600"
  else "text-red-600".

(** The band a rendered class stands for: the legend's dots, and the
    text colours of the same three hues. *)
Definition tierOfClass (cls : string) : option Tier :=
  if String.eqb cls "bg-green-500" || String.eqb cls "text-green-600" then Some High
  else if String.eqb cls "bg-yellow-500" || String.eqb cls "text-yellow-600" then Some Medium
  else if String.eqb cls "bg-red-500" || String.eqb cls "text-red-600" then Some Low
  else None.

(** The band shown by a score bar, and by an evidence label. *)
Definition scoreBarTier (score : float) : option Tier := tierOfClass (scoreBarClass score).
Definition similarityTier (similarity : float) : option Tier :=
  tierOfClass (similarityClass similarity).

(** [x === x]: false only for NaN. *)
Definition isNumber (x : float) : bool := PrimFloat.eqb x x.

(** The stance glyphs of [getStanceIcon]. *)
Inductive Icon := CheckCircleIcon | XCircleIcon | MinusCircleIcon.

(** [getStanceIcon]: the icon and its class. *)
Definition getStanceIcon (stance : string) : Icon * string :=
  if String.eqb stance "supports" then (CheckCircleIcon, "h-6 w-6 text-green-500")
  else if String.eqb stance "contradicts" then (XCircleIcon, "h-6 w-6 text-red-500")
  else (MinusCircleIcon, "h-6 w-6 text-gray-500").

(** [getStanceColor]. *)
Definition getStanceColor (stance : string) : string :=
  if String.eqb stance "supports" then "text-green-700 bg-green-50 border-green-200"
  else if String.eqb stance "contradicts" then "text-red-700 bg-red-50 border-red-200"
  else "text-gray-700 bg-gray-50 border-gray-200".

(** The sentence under the stance:
    [The document {supports | contradicts | is neutral about} your claim]. *)
Definition stanceVerb (stance : string) : string :=
  if String.eqb stance "supports" then "supports"
  else if String.eqb stance "contradicts" then "contradicts"
  else "is neutral about".

End ScoreDisplay.

(** ** types/index.ts *)

Module Types.

(** [Assessment.stance : 'supports' | 'contradicts' | 'neutral']. *)
Inductive Stance := supports | contradicts | neutral.

Definition stanceString (s : Stance) : string :=
  match s with
  | supports => "supports"
  | contradicts => "contradicts"
  | neutral => "neutral"
  end.

Record EvidenceSnippet := {
  text : JS.jsstring;
  similarity : float;
  sentence_index : N;
  word_count : N
}.

(** The fields of [Assessment] the handlers read. *)
Record Assessment := {
  id : Z;
  document_id : Z;
  user_claim : JS.jsstring;
  stance : Stance;
  evidence_snippets : list EvidenceSnippet;
  share_id : option JS.jsstring
}.

Record Document := {
  doc_id : Z;
  title : JS.jsstring
}.

End Types.

(** ** services/api.ts *)

Module Api.

Import JS.

(** A browser [File]: what [onDrop] reads of it. *)
Record File := {
  name : jsstring;
  type : jsstring;
  size : N
}.

(** The HTTP requests of the client, one constructor per endpoint and
    payload shape. *)
Inductive Request :=
| PostUploadFile (file : File)
| PostUploadUrl (url : jsstring)
| PostUploadDoi (doi : jsstring)
| GetDocument (id : Z)
| GetDocuments
| PostAssessment (document_id : Z) (user_claim : jsstring)
| GetAssessment (id : Z)
| GetSharedAssessment (shareId : jsstring)
| PostFeedback (assessmentId : Z) (feedback_score : Z)
               (feedback_comment : option jsstring).

(** [documentApi]. *)
Definition uploadFile (file : File) : Request := PostUploadFile file.
Definition uploadFromUrl (url : jsstring) : Request := PostUploadUrl url.
Definition uploadFromDoi (doi : jsstring) : Request := PostUploadDoi doi.
Definition getDocument (id : Z) : Request := GetDocument id.
Definition listDocuments : Request := GetDocuments.

(** [assessmentApi]: these four are all of it. *)
Definition createAssessment (documentId : Z) (userClaim : jsstring) : Request :=
  PostAssessment documentId userClaim.
Definition getAssessment (id : Z) : Request := GetAssessment id.
Definition getSharedAssessment (shareId : jsstring) : Request :=
  GetSharedAssessment shareId.
Definition submitFeedback (assessmentId feedbackScore : Z)
    (comment : option jsstring) : Request :=
  PostFeedback assessmentId feedbackScore comment.

End Api.

(** ** What a handler does *)

Module UI.

Import JS.

(** The observable actions of the handlers: calls of the API client, of
    the callbacks received as props, of the toaster, the router and the
    clipboard. State setters of the component itself are part of its
    state instead, except [setIsLoading], which is a prop. *)
Inductive Effect :=
| PreventDefault
| Call (r : Api.Request)
| OnError (error : jsstring)
| OnUpload (document : Types.Document)
| OnSubmit (claim : jsstring)
| SetIsLoading (loading : bool)
| ToastSuccess (msg : jsstring)
| ToastError (msg : jsstring)
| Navigate (path : jsstring)
| ClipboardWrite (text : jsstring)
| ExecCommandCopy (text : jsstring).

(** [detail || fallback] where [detail] is
    [error.response?.data?.detail]. *)
Definition orElse (detail : option jsstring) (fallback : jsstring) : jsstring :=
  match detail with
  | Some d => if truthy d then d else fallback
  | None => fallback
  end.

(** The requests among the effects. *)
Definition requests (es : list Effect) : list Api.Request :=
  flat_map (fun e => match e with Call r => [r] | _ => [] end) es.

End UI.

(** ** components/AssessmentPage.tsx *)

Module AssessmentPage.

Import JS UI.

Record State := {
  assessment : option Types.Assessment;
  isLoading : bool;
  feedback : option Z;
  feedbackComment : jsstring;
  isSubmittingFeedback : bool
}.

(** The [useState] initial values. *)
Definition initial : State :=
  {| assessment := None; isLoading := true; feedback := None;
     feedbackComment := []; isSubmittingFeedback := false |}.

Definition setAssessment (st : State) (a : Types.Assessment) : State :=
  {| assessment := Some a; isLoading := isLoading st; feedback := feedback st;
     feedbackComment := feedbackComment st;
     isSubmittingFeedback := isSubmittingFeedback st |}.
Definition setIsLoading (st : State) (b : bool) : State :=
  {| assessment := assessment st; isLoading := b; feedback := feedback st;
     feedbackComment := feedbackComment st;
     isSubmittingFeedback := isSubmittingFeedback st |}.
Definition setFeedback (st : State) (score : Z) : State :=
  {| assessment := assessment st; isLoading := isLoading st; feedback := Some score;
     feedbackComment := feedbackComment st;
     isSubmittingFeedback := isSubmittingFeedback st |}.
Definition setFeedbackComment (st : State) (c : jsstring) : State :=
  {| assessment := assessment st; isLoading := isLoading st; feedback := feedback st;
     feedbackComment := c;
     isSubmittingFeedback := isSubmittingFeedback st |}.
Definition setIsSubmittingFeedback (st : State) (b : bool) : State :=
  {| assessment := assessment st; isLoading := isLoading st; feedback := feedback st;
     feedbackComment := feedbackComment st;
     isSubmittingFeedback := b |}.

Section Handlers.

(** [window.location.origin]. *)
Variable origin : jsstring.

(** [`${window.location.origin}/share/${assessment.share_id}`]. *)
Definition shareUrl (share_id : jsstring) : jsstring :=
  origin ++ lit "/share/" ++ share_id.

(** [handleShare] up to [await navigator.clipboard.writeText]:
    [if (!assessment?.share_id) return]. *)
Definition handleShare (st : State) : list Effect :=
  match assessment st with
  | None => []
  | Some a =>
      match Types.share_id a with
      | None => []
      | Some sid =>
          if negb (truthy sid) then []
          else [ClipboardWrite (shareUrl sid)]
      end
  end.

(** [handleShare] after the clipboard write settled: the toast, and
    in the [catch] branch the textarea fallback first. *)
Definition handleShareSettled (url : jsstring) (written : bool) : list Effect :=
  if written then [ToastSuccess (lit "Share link copied to clipboard!")]
  else [ExecCommandCopy url; ToastSuccess (lit "Share link copied to clipboard!")].

(** [handleFeedback(score)] up to [await assessmentApi.submitFeedback]. *)
Definition handleFeedback (st : State) (score : Z) : State * list Effect :=
  match assessment st with
  | None => (st, [])
  | Some a =>
      (setIsSubmittingFeedback st true,
       [Call (Api.submitFeedback (Types.id a) score
                (if truthy (feedbackComment st)
                 then Some (feedbackComment st) else None))])
  end.

(** [handleFeedback(score)] after the request settled: [None] when it
    resolved, [Some detail] when it was rejected. *)
Definition handleFeedbackSettled (st : State) (score : Z)
    (rejected : option (option jsstring)) : State * list Effect :=
  match rejected with
  | None =>
      (setIsSubmittingFeedback (setFeedback st score) false,
       [ToastSuccess (lit "Thank you for your feedback!")])
  | Some detail =>
      (setIsSubmittingFeedback st false,
       [ToastError (orElse detail (lit "Failed to submit feedback"))])
  end.

(** Which of the three returns of the component is on screen. *)
Inductive View := Spinner | NotFound | Results.

Definition view (st : State) : View :=
  if isLoading st then Spinner
  else match assessment st with None => NotFound | Some _ => Results end.

(** The two feedback buttons are rendered while [feedback === null]
    and enabled while [!isSubmittingFeedback]. *)
Definition feedbackButtonsEnabled (st : State) : bool :=
  match view st, feedback st with
  | Results, None => negb (isSubmittingFeedback st)
  | _, _ => false
  end.

Definition shareButtonRendered (st : State) : bool :=
  match view st with Results => true | _ => false end.

(** What can happen to a mounted page: the initial fetch settles, the
    user acts on a rendered control, an awaited call settles (the
    event then carries what the suspended handler had captured). *)
Inductive Event :=
| AssessmentLoaded (result : Types.Assessment)
| AssessmentFailed (detail : option jsstring)
| ClickShare
| ShareSettled (url : jsstring) (written : bool)
| ClickHelpful
| ClickNotHelpful
| ChangeComment (value : jsstring)
| FeedbackSettled (score : Z) (rejected : option (option jsstring)).

Definition step (st : State) (ev : Event) : State * list Effect :=
  match ev with
  | AssessmentLoaded result => (setIsLoading (setAssessment st result) false, [])
  | AssessmentFailed detail =>
      (setIsLoading st false,
       [ToastError (orElse detail (lit "Failed to load assessment"))])
  | ClickShare =>
      if shareButtonRendered st then (st, handleShare st) else (st, [])
  | ShareSettled url written => (st, handleShareSettled url written)
  | ClickHelpful =>
      if feedbackButtonsEnabled st then handleFeedback st 1 else (st, [])
  | ClickNotHelpful =>
      if feedbackButtonsEnabled st then handleFeedback st (-1) else (st, [])
  | ChangeComment value =>
      if feedbackButtonsEnabled st then (setFeedbackComment st value, [])
      else (st, [])
  | FeedbackSettled score rejected => handleFeedbackSettled st score rejected
  end.

(** The effects of a run, in order. *)
Fixpoint run (st : State) (evs : list Event) : State * list Effect :=
  match evs with
  | [] => (st, [])
  | ev :: evs' =>
      let '(st1, es1) := step st ev in
      let '(st2, es2) := run st1 evs' in
      (st2, es1 ++ es2)
  end.

End Handlers.

End AssessmentPage.

(** ** components/FileUpload.tsx *)

Module FileUpload.

Import JS UI.

Definition allowedTypes : list jsstring :=
  [lit "application/pdf";
   lit "application/vnd.openxmlformats-officedocument.wordprocessingml.document"].

(** [Array.prototype.includes] on strings. *)
Definition includes (l : list jsstring) (x : jsstring) : bool :=
  existsb (fun y => bool_decide (y = x)) l.

(** [onDrop(acceptedFiles)] up to [await documentApi.uploadFile]. *)
Definition onDrop (acceptedFiles : list Api.File) : list Effect :=
  match acceptedFiles with
  | [] => []
  | file :: _ =>
      if negb (includes allowedTypes (Api.type file)) then
        [OnError (lit "Please upload a PDF or DOCX file")]
      else if 50 * 1024 * 1024 <? Api.size file then
        [OnError (lit "File size must be less than 50MB")]
      else
        [SetIsLoading true; Call (Api.uploadFile file)]
  end.

(** [onDrop] after the upload settled. *)
Definition onDropSettled (result : Types.Document + option jsstring) : list Effect :=
  match result with
  | inl document => [OnUpload document; SetIsLoading false]
  | inr detail => [OnError (orElse detail (lit "Failed to upload file")); SetIsLoading false]
  end.

End FileUpload.

(** ** components/ClaimInput.tsx *)

Module ClaimInput.

Import JS UI.

(** [handleSubmit], with the textarea holding [claim]. *)
Definition handleSubmit (claim : jsstring) : list Effect :=
  PreventDefault ::
  (if negb (truthy (trim claim)) then []
   else [OnSubmit (trim claim)]).

(** The [disabled] attribute of the Analyze button. *)
Definition submitDisabled (isLoading : bool) (claim : jsstring) : bool :=
  isLoading || negb (truthy (trim claim)).

End ClaimInput.

(** ** components/HomePage.tsx *)

Module HomePage.

Import JS UI.

(** [handleClaimSubmit(claim)] up to [await assessmentApi.createAssessment]. *)
Definition handleClaimSubmit (document : option Types.Document) (claim : jsstring)
    : list Effect :=
  match document with
  | None => [ToastError (lit "Please upload a document first")]
  | Some d => [SetIsLoading true; Call (Api.createAssessment (Types.doc_id d) claim)]
  end.

(** Submitting the claim form: [ClaimInput] is rendered only once a
    document is there, with [onSubmit={handleClaimSubmit}]; a disabled
    Analyze button submits nothing. *)
Definition submitClaimForm (document : option Types.Document) (isLoading : bool)
    (claim : jsstring) : list Effect :=
  match document with
  | None => []
  | Some _ =>
      if ClaimInput.submitDisabled isLoading claim then []
      else
        flat_map (fun e => match e with
                           | OnSubmit c => handleClaimSubmit document c
                           | _ => [e]
                           end)
                 (ClaimInput.handleSubmit claim)
  end.

End HomePage.

(** ** components/DoiInput.tsx *)

Module DoiInput.

Import JS UI.

(** The regular expressions of this component use literal characters,
    sequencing, the greedy [?] and the greedy [.+]; both are anchored
    by [^] and have no flags. *)
Inductive Regex :=
| Lit (l : jsstring)
| Seq (a b : Regex)
| Opt (a : Regex)
| DotPlus.

(** [.+] followed by the continuation [k]: [.] takes one code unit
    that is no line terminator; greedy, so a longer run is tried
    before the continuation is. *)
Fixpoint dotPlus (s : jsstring) (k : jsstring -> option jsstring) : option jsstring :=
  match s with
  | [] => None
  | c :: s' =>
      if isLineTerminator c then None
      else match dotPlus s' k with
           | Some r => Some r
           | None => k s'
           end
  end.

(** The backtracking matcher: [exec r s k] matches [r] at the start of
    [s] and hands the rest to [k], trying the alternatives in the
    order of ECMAScript. *)
Fixpoint exec (r : Regex) (s : jsstring) (k : jsstring -> option jsstring)
    : option jsstring :=
  match r with
  | Lit l => match stripPrefix l s with
             | Some s' => k s'
             | None => None
             end
  | Seq a b => exec a s (fun s' => exec b s' k)
  | Opt a => match exec a s k with
             | Some r' => Some r'
             | None => k s
             end
  | DotPlus => dotPlus s k
  end.

(** [/^r/.test(s)]. *)
Definition test (r : Regex) (s : jsstring) : bool :=
  match exec r s Some with Some _ => true | None => false end.

(** [s.replace(/^r/, '')]. *)
Definition replaceEmpty (r : Regex) (s : jsstring) : jsstring :=
  match exec r s Some with Some rest => rest | None => s end.

(** [/^10\..+\/.+/] *)
Definition doiPattern : Regex :=
  Seq (Lit (lit "10.")) (Seq DotPlus (Seq (Lit (lit "/")) DotPlus)).

(** [/^(https?:\/\/)?(dx\.)?doi\.org\//] *)
Definition doiUrlPrefix : Regex :=
  Seq (Opt (Seq (Lit (lit "http")) (Seq (Opt (Lit (lit "s"))) (Lit (lit "://")))))
      (Seq (Opt (Lit (lit "dx."))) (Lit (lit "doi.org/"))).

Definition cleanDoi (doi : jsstring) : jsstring := replaceEmpty doiUrlPrefix doi.

(** [handleSubmit] up to [await documentApi.uploadFromDoi], with the
    input holding [doi]. *)
Definition handleSubmit (doi : jsstring) : list Effect :=
  PreventDefault ::
  (if negb (truthy (trim doi)) then
     [OnError (lit "Please enter a DOI")]
   else if negb (test doiPattern (cleanDoi doi)) then
     [OnError (lit "Please enter a valid DOI (e.g., 10.1000/123456)")]
   else
     [SetIsLoading true; Call (Api.uploadFromDoi (cleanDoi doi))]).

(** The [disabled] attribute of the Fetch button. *)
Definition submitDisabled (isLoading : bool) (doi : jsstring) : bool :=
  isLoading || negb (truthy (trim doi)).

(** [handleSubmit] after the request settled: [onUpload(document)] in
    the [try], [onError(message)] in the [catch], [setIsLoading(false)]
    in the [finally]. *)
Definition handleSubmitSettled (result : Types.Document + option jsstring)
    : list Effect :=
  match result with
  | inl document => [OnUpload document; SetIsLoading false]
  | inr detail => [OnError (orElse detail (lit "Failed to fetch DOI")); SetIsLoading false]
  end.

(** The input after the request settled: [setDoi('')] on success only. *)
Definition doiAfterSettled (doi : jsstring)
    (result : Types.Document + option jsstring) : jsstring :=
  match result with
  | inl _ => []
  | inr _ => doi
  end.

End DoiInput.

(** ** components/UrlInput.tsx *)

Module UrlInput.

Import JS UI.

Section WithURL.

(** Whether [new URL(url)] returns instead of throwing: the URL parser
    of the browser. *)
Variable canParse : jsstring -> bool.

(** [handleSubmit] up to [await documentApi.uploadFromUrl], with the
    input holding [url]. *)
Definition handleSubmit (url : jsstring) : list Effect :=
  PreventDefault ::
  (if negb (truthy (trim url)) then
     [OnError (lit "Please enter a URL")]
   else if negb (canParse url) then
     [OnError (lit "Please enter a valid URL")]
   else
     [SetIsLoading true; Call (Api.uploadFromUrl url)]).

End WithURL.

(** The [disabled] attribute of the Fetch button. *)
Definition submitDisabled (isLoading : bool) (url : jsstring) : bool :=
  isLoading || negb (truthy (trim url)).

(** [handleSubmit] after the request settled. *)
Definition handleSubmitSettled (result : Types.Document + option jsstring)
    : list Effect :=
  match result with
  | inl document => [OnUpload document; SetIsLoading false]
  | inr detail =>
      [OnError (orElse detail (lit "Failed to fetch from URL")); SetIsLoading false]
  end.

(** The input after the request settled: [setUrl('')] on success only. *)
Definition urlAfterSettled (url : jsstring)
    (result : Types.Document + option jsstring) : jsstring :=
  match result with
  | inl _ => []
  | inr _ => url
  end.

End UrlInput.

(** ** components/Citations.tsx *)

Module Citations.

Import JS.

(** [Citation] of types/index.ts. *)
Record Citation := {
  id : jsstring;
  text : jsstring;
  similarity_score : float;
  document_title : jsstring;
  document_id : Z;
  snippet_index : N;
  doi : option jsstring;
  url : option jsstring
}.

(** The anchors a citation can carry, with their [href]. *)
Inductive Link :=
| DoiLink (href : jsstring)
| SourceLink (href : jsstring).

(** ToBoolean of an optional string field. *)
Definition present (field : option jsstring) : bool :=
  match field with
  | Some v => truthy v
  | None => false
  end.

(** The links of one citation card: [citation.doi && <a href=
    {`https://doi.org/${citation.doi}`}>] and
    [citation.url && !citation.doi && <a href={citation.url}>]. *)
Definition links (citation : Citation) : list Link :=
  (match doi citation with
   | Some d => if truthy d then [DoiLink (lit "https://doi.org/" ++ d)] else []
   | None => []
   end)
  ++ (match url citation with
      | Some u =>
          if truthy u && negb (present (doi citation)) then [SourceLink u] else []
      | None => []
      end).

(** [Section {citation.snippet_index + 1}]. *)
Definition sectionNumber (citation : Citation) : N := snippet_index citation + 1.

End Citations.

(** ** components/HomePage.tsx: the page and its children *)

Module HomePageState.

Import JS UI.

Record State := {
  document : option Types.Document;
  isLoading : bool
}.

(** The [useState] initial values. *)
Definition initial : State := {| document := None; isLoading := false |}.

(** [handleDocumentUploaded]. *)
Definition handleDocumentUploaded (st : State) (uploadedDocument : Types.Document)
    : State * list Effect :=
  ({| document := Some uploadedDocument; isLoading := isLoading st |},
   [ToastSuccess (lit "Document processed successfully!")]).

(** [handleError]. *)
Definition handleError (st : State) (error : jsstring) : State * list Effect :=
  ({| document := document st; isLoading := false |}, [ToastError error]).

(** What the page does with one effect of a child: the props
    [onUpload], [onError] and [setIsLoading] are bound to
    [handleDocumentUploaded], [handleError] and the state setter; the
    rest goes out as it is. ([onSubmit] is bound by
    [HomePage.submitClaimForm].) *)
Definition perform (st : State) (e : Effect) : State * list Effect :=
  match e with
  | OnUpload d => handleDocumentUploaded st d
  | OnError error => handleError st error
  | SetIsLoading loading =>
      ({| document := document st; isLoading := loading |}, [])
  | _ => (st, [e])
  end.

Fixpoint performAll (st : State) (es : list Effect) : State * list Effect :=
  match es with
  | [] => (st, [])
  | e :: es' =>
      let '(st1, out1) := perform st e in
      let '(st2, out2) := performAll st1 es' in
      (st2, out1 ++ out2)
  end.

(** Which child sent the upload that settles. *)
Inductive Uploader := FromFile | FromUrl | FromDoi.

Definition uploadSettled (from : Uploader)
    (result : Types.Document + option jsstring) : list Effect :=
  match from with
  | FromFile => FileUpload.onDropSettled result
  | FromUrl => UrlInput.handleSubmitSettled result
  | FromDoi => DoiInput.handleSubmitSettled result
  end.

(** What can happen on the page: a drop on the dropzone, a submission
    of one of the three forms (the event carries what the field holds),
    and the settling of an awaited request. *)
Inductive Event :=
| Drop (acceptedFiles : list Api.File)
| SubmitUrl (url : jsstring)
| SubmitDoi (doi : jsstring)
| SubmitClaim (claim : jsstring)
| UploadSettled (from : Uploader) (result : Types.Document + option jsstring)
| AssessmentSettled (result : Z + option jsstring).

Definition isUserEvent (ev : Event) : bool :=
  match ev with
  | Drop _ | SubmitUrl _ | SubmitDoi _ | SubmitClaim _ => true
  | UploadSettled _ _ | AssessmentSettled _ => false
  end.

Section Page.

(** The URL parser of the browser, and the text of a number in a
    template literal. *)
Variable canParse : jsstring -> bool.
Variable numberToString : Z -> jsstring.

(** [handleClaimSubmit] after [createAssessment] settled:
    [navigate(`/assessment/${assessment.id}`)], or [handleError]. *)
Definition handleClaimSubmitSettled (st : State) (result : Z + option jsstring)
    : State * list Effect :=
  match result with
  | inl id => (st, [Navigate (lit "/assessment/" ++ numberToString id)])
  | inr detail => handleError st (orElse detail (lit "Failed to create assessment"))
  end.

(** One event. The dropzone is [disabled: isLoading]; a form whose
    button is disabled is not submitted. *)
Definition step (st : State) (ev : Event) : State * list Effect :=
  match ev with
  | Drop acceptedFiles =>
      if isLoading st then (st, [])
      else performAll st (FileUpload.onDrop acceptedFiles)
  | SubmitUrl url =>
      if UrlInput.submitDisabled (isLoading st) url then (st, [])
      else performAll st (UrlInput.handleSubmit canParse url)
  | SubmitDoi doi =>
      if DoiInput.submitDisabled (isLoading st) doi then (st, [])
      else performAll st (DoiInput.handleSubmit doi)
  | SubmitClaim claim =>
      performAll st (HomePage.submitClaimForm (document st) (isLoading st) claim)
  | UploadSettled from result => performAll st (uploadSettled from result)
  | AssessmentSettled result => handleClaimSubmitSettled st result
  end.

Fixpoint run (st : State) (evs : list Event) : State * list Effect :=
  match evs with
  | [] => (st, [])
  | ev :: evs' =>
      let '(st1, es1) := step st ev in
      let '(st2, es2) := run st1 evs' in
      (st2, es1 ++ es2)
  end.

End Page.

(** The abstract of the document summary:
    [abstract.length > 300 ? `${abstract.substring(0, 300)}...` : abstract]. *)
Definition abstractShown (abstract : jsstring) : jsstring :=
  if (300 <? length abstract)%nat then firstn 300 abstract ++ lit "..."
  else abstract.

(** One extracted claim of the summary:
    [claim.length > 150 ? `${claim.substring(0, 150)}...` : claim]. *)
Definition claimShown (claim : jsstring) : jsstring :=
  if (150 <? length claim)%nat then firstn 150 claim ++ lit "..."
  else claim.

(** The list items of "Extracted Claims": [extracted_claims.slice(0, 3)]
    mapped, and, when [extracted_claims.length > 3], the line
    [And {extracted_claims.length - 3} more...] with its number. *)
Definition claimsShown (extracted_claims : list jsstring)
    : list jsstring * option nat :=
  (map claimShown (firstn 3 extracted_claims),
   if (3 <? length extracted_claims)%nat
   then Some (length extracted_claims - 3)%nat
   else None).

End HomePageState.


(** ** The assessment engine, as the client's contract describes it *)

Module Engine.

Import JS.

Local Open Scope Q_scope.

(** Modelled from the spec: a sentence unit of the document with its
    similarity to the claim (sections 3, 4.1 and 4.3; the segmenter and
    the embedding service are not among the sources). *)
Record ScoredSentence := {
  text : jsstring;
  sentence_index : N;
  word_count : N;
  similarity : Q
}.

(** Modelled from the spec: the ranking of the evidence retriever
    (section 4.4, not among the sources), "by similarity to the claim,
    descending, ties broken by lower sentence index". *)
Definition ranksBefore (a b : ScoredSentence) : Prop :=
  similarity b < similarity a
  \/ (similarity a == similarity b /\ (sentence_index a <= sentence_index b)%N).

(** Modelled from the spec: the ranking is decidable, by comparing the
    similarities and then the indices. *)
#[export] Instance ranksBefore_dec (a b : ScoredSentence) : Decision (ranksBefore a b).
Proof.
  unfold ranksBefore.
  destruct (Qlt_le_dec (similarity b) (similarity a)) as [Hlt|Hle];
    [left; now left|].
  destruct (Qeq_dec (similarity a) (similarity b)) as [Heq|Hne];
    [|right; intros [H|[H _]];
      [now apply (Qlt_not_le _ _ H)|contradiction]].
  destruct (decide (sentence_index a <= sentence_index b)%N) as [Hi|Hi];
    [left; right; now split|].
  right; intros [H|[_ H]]; [now apply (Qlt_not_le _ _ H)|contradiction].
Defined.

(** Modelled from the spec: the qualifying sentences of the evidence
    retriever (section 4.4, not among the sources), those whose
    similarity reaches the minimum threshold; the result holds fewer than
    [K] when fewer qualify, none when even the best match is below the
    threshold. *)
Definition qualifies (minSimilarity : Q) (s : ScoredSentence) : bool :=
  Qle_bool minSimilarity (similarity s).

(** Modelled from the spec: the retriever's output (section 4.4),
    "the top-K ... sentences by similarity to the claim". *)
Definition retrieve (K : nat) (minSimilarity : Q) (sentences : list ScoredSentence)
    : list ScoredSentence :=
  firstn K (merge_sort ranksBefore (List.filter (qualifies minSimilarity) sentences)).

(** Modelled from the spec: the retriever's defaults (section 4.4),
    "default K=5" and "minimum threshold (default 0.2)". *)
Definition defaultK : nat := 5.
Definition defaultMinSimilarity : Q := 0.2.

(** Modelled from the spec: the fusion weights (section 4.7, not among
    the sources), configurable, and required to sum to 1.0. *)
Record Weights := {
  w_similarity : Q;
  w_entailment : Q;
  w_quality : Q;
  w_evidence_strength : Q
}.

(** Modelled from the spec: "default weights: similarity 0.25,
    entailment 0.35, quality 0.20, evidence_strength 0.20" (section 4.7). *)
Definition defaultWeights : Weights :=
  {| w_similarity := 0.25; w_entailment := 0.35;
     w_quality := 0.20; w_evidence_strength := 0.20 |}.

(** Modelled from the spec: "configurable, must sum to 1.0" (section
    4.7); a weight is not negative. *)
Definition validWeights (w : Weights) : Prop :=
  0 <= w_similarity w /\ 0 <= w_entailment w /\ 0 <= w_quality w
  /\ 0 <= w_evidence_strength w
  /\ w_similarity w + w_entailment w + w_quality w + w_evidence_strength w == 1.

(** Modelled from the spec: "clamped to [0,1]" (section 4.7). *)
Definition clamp01 (x : Q) : Q :=
  if Qlt_le_dec x 0 then 0 else if Qlt_le_dec 1 x then 1 else x.

(** Modelled from the spec: the "weighted sum of the four inputs"
    (section 4.7). *)
Definition weightedSum (w : Weights)
    (similarity_score entailment_score method_quality_score
     evidence_strength_score : Q) : Q :=
  w_similarity w * similarity_score + w_entailment w * entailment_score
  + w_quality w * method_quality_score
  + w_evidence_strength w * evidence_strength_score.

(** Modelled from the spec: confidence fusion (section 4.7), "weighted
    sum of the four inputs ..., clamped to [0,1]". *)
Definition fuse (w : Weights)
    (similarity_score entailment_score method_quality_score
     evidence_strength_score : Q) : Q :=
  clamp01 (weightedSum w similarity_score entailment_score
             method_quality_score evidence_strength_score).

(** Modelled from the spec: the total similarity of the retained
    evidence, numerator of the mean of section 4.7. *)
Definition sumSimilarity (evidence : list ScoredSentence) : Q :=
  fold_right (fun s acc => similarity s + acc) 0 evidence.

(** Modelled from the spec: the mean similarity of the evidence
    (section 4.7), "0 if empty". *)
Definition evidenceStrength (evidence : list ScoredSentence) : Q :=
  match evidence with
  | [] => 0
  | _ => sumSimilarity evidence / inject_Z (Z.of_nat (length evidence))
  end.

(** Modelled from the spec: the "best evidence similarity" (section
    4.7), that of the first snippet in ranking order. *)
Definition bestSimilarity (evidence : list ScoredSentence) : Q :=
  match evidence with
  | [] => 0
  | best :: _ => similarity best
  end.

(** Modelled from the spec: the Assessment record (section 3), its
    scores and its evidence; the stored share id is optional. *)
Record Assessment := {
  similarity_score : Q;
  entailment_score : Q;
  method_quality_score : Q;
  evidence_strength_score : Q;
  confidence_score : Q;
  evidence_snippets : list ScoredSentence;
  share_id : option jsstring
}.

(** Modelled from the spec: the configurable policy of the retriever
    and the fusion (sections 4.4 and 4.7). *)
Record Config := {
  K : nat;
  minSimilarity : Q;
  weights : Weights
}.

(** Modelled from the spec: the defaults of sections 4.4 and 4.7. *)
Definition defaultConfig : Config :=
  {| K := defaultK; minSimilarity := defaultMinSimilarity; weights := defaultWeights |}.

(** Modelled from the spec: the orchestrator's retrieve and fuse stages
    (section 4.10). The stance classifier and the quality scorer are
    pluggable; their scores are taken as given. *)
Definition createAssessment (cfg : Config) (sentences : list ScoredSentence)
    (entailment quality : Q) : Assessment :=
  let evidence := retrieve (K cfg) (minSimilarity cfg) sentences in
  let sim := bestSimilarity evidence in
  let strength := evidenceStrength evidence in
  {| similarity_score := sim;
     entailment_score := entailment;
     method_quality_score := quality;
     evidence_strength_score := strength;
     confidence_score := fuse (weights cfg) sim entailment quality strength;
     evidence_snippets := evidence;
     share_id := None |}.

(** Modelled from the spec: attaching the share id, the one field of an
    Assessment set after creation besides feedback (section 3). *)
Definition withShareId (a : Assessment) (sid : jsstring) : Assessment :=
  {| similarity_score := similarity_score a;
     entailment_score := entailment_score a;
     method_quality_score := method_quality_score a;
     evidence_strength_score := evidence_strength_score a;
     confidence_score := confidence_score a;
     evidence_snippets := evidence_snippets a;
     share_id := Some sid |}.

Section ShareIds.

(** Modelled from the spec: the generator of share ids, which the spec
    leaves open; any function of the store. *)
Variable newShareId : gmap Z Assessment -> jsstring.

(** Modelled from the spec: [ensureShareId(assessmentId) -> shareId]
    (section 6, not among the sources), "generated lazily on first
    share request, stable thereafter"; [None] for an unknown
    assessment. *)
Definition ensureShareId (assessmentId : Z) (store : gmap Z Assessment)
    : option (jsstring * gmap Z Assessment) :=
  match store !! assessmentId with
  | None => None
  | Some a =>
      match share_id a with
      | Some sid => Some (sid, store)
      | None =>
          let sid := newShareId store in
          Some (sid, <[assessmentId := withShareId a sid]> store)
      end
  end.

End ShareIds.

End Engine.

(** ** components/EvidenceSnippets.tsx: the list *)

Module EvidenceSnippets.

Import JS.



End EvidenceSnippets.

(** ** Sample values *)

Module Samples.

Import JS.

Definition origin : jsstring := lit "http://localhost:3000".

Definition unsharedAssessment : Types.Assessment :=
  {| Types.id := 7; Types.document_id := 3;
     Types.user_claim := lit "Exercise reduces heart rate";
     Types.stance := Types.supports;
     Types.evidence_snippets := [];
     Types.share_id := None |}.

Definition loadedPage : AssessmentPage.State :=
  {| AssessmentPage.assessment := Some unsharedAssessment;
     AssessmentPage.isLoading := false;
     AssessmentPage.feedback := None;
     AssessmentPage.feedbackComment := [];
     AssessmentPage.isSubmittingFeedback := false |}.

Definition paper (size : N) : Api.File :=
  {| Api.name := lit "paper.pdf"; Api.type := lit "application/pdf"; Api.size := size |}.

Definition notes : Api.File :=
  {| Api.name := lit "notes.txt"; Api.type := lit "text/plain"; Api.size := 10 |}.

Definition sentence (index : N) (sim : Q) : Engine.ScoredSentence :=
  {| Engine.text := []; Engine.sentence_index := index;
     Engine.word_count := 5; Engine.similarity := sim |}.

Definition stored : Engine.Assessment :=
  Engine.createAssessment Engine.defaultConfig
    [sentence 0 0.5; sentence 1 0.9; sentence 2 0.5; sentence 3 0.1] 0.6 0.5.

End Samples.

(** ** Vocabulary of the statements *)

Module Spec.

Import JS UI.

(** The feedback scores among the requests of a run. *)
Definition feedbackScores (es : list Effect) : list Z :=
  flat_map (fun r => match r with
                     | Api.PostFeedback _ score _ => [score]
                     | _ => []
                     end)
           (requests es).

(** A file the upload accepts: PDF or DOCX by MIME type, at most 50 MB. *)
Definition acceptable (file : Api.File) : Prop :=
  (Api.type file = lit "application/pdf"
   \/ Api.type file
      = lit "application/vnd.openxmlformats-officedocument.wordprocessingml.document")
  /\ (Api.size file <= 52428800)%N.

(** The resolver prefixes a DOI may be given with: an optional
    [http://] or [https://], an optional [dx.], then [doi.org/]. *)
Definition doiUrlPrefixes : list jsstring :=
  [lit "doi.org/"; lit "dx.doi.org/";
   lit "http://doi.org/"; lit "http://dx.doi.org/";
   lit "https://doi.org/"; lit "https://dx.doi.org/"].

(** [clean] is [doi] without its resolver prefix, or [doi] itself when
    it has none. *)
Definition stripsTo (doi clean : jsstring) : Prop :=
  (exists p, In p doiUrlPrefixes /\ doi = p ++ clean)
  \/ ((forall p rest, In p doiUrlPrefixes -> doi <> p ++ rest) /\ clean = doi).

(** The strings a regular expression matches in full. *)
Inductive matches : DoiInput.Regex -> jsstring -> Prop :=
| matches_Lit l : matches (DoiInput.Lit l) l
| matches_Seq a b x y :
    matches a x -> matches b y -> matches (DoiInput.Seq a b) (x ++ y)
| matches_Opt_skip a : matches (DoiInput.Opt a) []
| matches_Opt_take a x : matches a x -> matches (DoiInput.Opt a) x
| matches_DotPlus x :
    x <> [] -> Forall (fun c => isLineTerminator c = false) x ->
    matches DoiInput.DotPlus x.

(** [s] starts as the pattern [^10\..+/.+] asks: [10.], a non-empty run
    without line terminators, a slash, and one more such character. *)
Definition hasDoiShape (s : jsstring) : Prop :=
  exists a c rest,
    s = lit "10." ++ a ++ lit "/" ++ c :: rest
    /\ a <> []
    /\ Forall (fun x => isLineTerminator x = false) a
    /\ isLineTerminator c = false.

End Spec.

(** ** Vocabulary of the further statements *)

Module PageSpec.

Import JS UI.

(** The error toasts among the effects. *)
Definition toastErrors (es : list Effect) : list jsstring :=
  flat_map (fun e => match e with ToastError msg => [msg] | _ => [] end) es.

(** A request that went through the validation of the form that sends
    it. *)
Definition validated (canParse : jsstring -> bool) (r : Api.Request) : Prop :=
  match r with
  | Api.PostUploadFile file => Spec.acceptable file
  | Api.PostUploadUrl url => canParse url = true /\ trim url <> []
  | Api.PostUploadDoi doi => Spec.hasDoiShape doi
  | Api.PostAssessment _ user_claim =>
      user_claim <> [] /\ trim user_claim = user_claim
  | _ => False
  end.

(** The document of the last upload that succeeded, if any. *)
Fixpoint lastUpload (evs : list HomePageState.Event) : option Types.Document :=
  match evs with
  | [] => None
  | ev :: evs' =>
      match lastUpload evs' with
      | Some d => Some d
      | None =>
          match ev with
          | HomePageState.UploadSettled _ (inl d) => Some d
          | _ => None
          end
      end
  end.

(** The messages of the client-side validation. *)
Definition validationMessages : list jsstring :=
  [lit "Please upload a PDF or DOCX file";
   lit "File size must be less than 50MB";
   lit "Please enter a valid URL";
   lit "Please enter a valid DOI (e.g., 10.1000/123456)"].

(** The messages of the guards against a missing input. *)
Definition missingInputMessages : list jsstring :=
  [lit "Please enter a URL"; lit "Please enter a DOI";
   lit "Please upload a document first"].

(** Events of the assessment page other than the settling of a feedback
    request. *)
Definition feedbackPending (ev : AssessmentPage.Event) : bool :=
  match ev with
  | AssessmentPage.FeedbackSettled _ _ => false
  | _ => true
  end.

End PageSpec.

(** ** Further sample values *)

Module MoreSamples.

Import JS.

Definition citedPaper : Citations.Citation :=
  {| Citations.id := lit "c1"; Citations.text := lit "Exercise lowers heart rate.";
     Citations.similarity_score := 0.8%float;
     Citations.document_title := lit "A study";
     Citations.document_id := 3; Citations.snippet_index := 0;
     Citations.doi := Some (lit "10.5/x");
     Citations.url := Some (lit "https://example.org/paper") |}.

Definition uploaded : Types.Document :=
  {| Types.doc_id := 3; Types.title := lit "A study" |}.

Definition sharedAssessment : Types.Assessment :=
  {| Types.id := 7; Types.document_id := 3;
     Types.user_claim := lit "Exercise reduces heart rate";
     Types.stance := Types.supports;
     Types.evidence_snippets := [];
     Types.share_id := Some (lit "k3x9") |}.

End MoreSamples.

(** * Properties *)

(** ** Comparisons of binary64 values *)

Section FloatOrder.

Import ScoreDisplay.

Lemma SFcompare_antisym (x y : spec_float) (c : comparison) :
  SFcompare x y = Some c -> SFcompare y x = Some (CompOpp c).
Proof.
  destruct x as [sx|sx| |sx mx ex], y as [sy|sy| |sy my ey]; simpl;
    intros H; try discriminate;
    try (destruct sx); try (destruct sy);
    injection H as <-; try reflexivity;
    rewrite (Z.compare_antisym ey ex);
    destruct (ey ?= ex)%Z; simpl; try reflexivity;
    rewrite (Pos.compare_cont_antisym mx my Eq); simpl;
    destruct (Pos.compare_cont Eq my mx); reflexivity.
Qed.

Lemma isNumber_compare (x : float) :
  isNumber x = true -> Prim2SF x <> S754_nan.
Proof.
  unfold isNumber. rewrite FloatAxioms.eqb_spec. unfold SFeqb.
  intros H E. rewrite E in H. discriminate.
Qed.

Lemma SFcompare_defined (x y : spec_float) :
  x <> S754_nan -> y <> S754_nan -> exists c, SFcompare x y = Some c.
Proof.
  destruct x, y; simpl; intros Hx Hy; try congruence; eauto.
Qed.

(** On numbers, [x < y] is the negation of [x >= y]. *)
Lemma ltb_negb_geb (x y : float) :
  isNumber x = true -> isNumber y = true -> ltb x y = negb (geb x y).
Proof.
  intros Hx%isNumber_compare Hy%isNumber_compare.
  unfold ltb, geb. rewrite FloatAxioms.ltb_spec, FloatAxioms.leb_spec. unfold SFltb, SFleb.
  destruct (SFcompare_defined _ _ Hx Hy) as [c Hc].
  rewrite Hc, (SFcompare_antisym _ _ _ Hc).
  now destruct c.
Qed.

Lemma SFcompare_positive (m1 m2 : positive) (e1 e2 : Z) :
  SFcompare (S754_finite false m1 e1) (S754_finite false m2 e2)
  = Some match (e1 ?= e2)%Z with
         | Lt => Lt
         | Gt => Gt
         | Eq => Pos.compare_cont Eq m1 m2
         end.
Proof. reflexivity. Qed.

(** A score at or above the upper threshold is above the lower one. *)
Lemma geb_high_medium (s : float) :
  geb s 0.7 = true -> geb s 0.4 = true.
Proof.
  unfold geb. rewrite !FloatAxioms.leb_spec. unfold SFleb.
  replace (Prim2SF 0.7) with (S754_finite false 6305039478318694 (-53))
    by (vm_compute; reflexivity).
  replace (Prim2SF 0.4) with (S754_finite false 7205759403792794 (-54))
    by (vm_compute; reflexivity).
  destruct (Prim2SF s) as [b|b| |[|] m e]; try (simpl; easy).
  rewrite !SFcompare_positive.
  destruct (Z.compare_spec (-53) e) as [<-|Hlt|Hgt]; try easy.
  intros _. destruct (Z.compare_spec (-54) e) as [<-|Hlt'|Hgt']; try easy; lia.
Qed.

End FloatOrder.

(** ** JavaScript strings *)

Section JSStrings.

Import JS.

Lemma stripPrefix_Some (p s r : jsstring) :
  stripPrefix p s = Some r <-> s = p ++ r.
Proof.
  revert s. induction p as [|a p IH]; intros s; simpl.
  - split; congruence.
  - destruct s as [|c s]; [split; discriminate|].
    destruct (N.eqb_spec a c) as [->|Hne].
    + rewrite IH. split; congruence.
    + split; [discriminate|congruence].
Qed.

Lemma stripPrefix_app (p r : jsstring) : stripPrefix p (p ++ r) = Some r.
Proof. now apply stripPrefix_Some. Qed.

Lemma trimStart_split (s : jsstring) :
  exists ws, s = ws ++ trimStart s /\ Forall (fun c => isTrimmable c = true) ws.
Proof.
  induction s as [|c s (ws & Hs & Hws)]; simpl.
  - now exists [].
  - destruct (isTrimmable c) eqn:Hc.
    + exists (c :: ws). split; [simpl; congruence|now constructor].
    + now exists [].
Qed.

Lemma trimStart_nil (s : jsstring) :
  trimStart s = [] <-> Forall (fun c => isTrimmable c = true) s.
Proof.
  induction s as [|c s IH]; simpl.
  - split; [constructor|reflexivity].
  - destruct (isTrimmable c) eqn:Hc.
    + rewrite IH. split; [now constructor|now inversion 1].
    + split; [discriminate|]. inversion 1; congruence.
Qed.

Lemma trimStart_head (s : jsstring) (c : N) (s' : jsstring) :
  trimStart s = c :: s' -> isTrimmable c = false.
Proof.
  induction s as [|x s IH]; simpl; [discriminate|].
  destruct (isTrimmable x) eqn:Hx; [exact IH|congruence].
Qed.

Lemma trimEnd_nil (s : jsstring) :
  trimEnd s = [] <-> Forall (fun c => isTrimmable c = true) s.
Proof.
  unfold trimEnd. split.
  - intros H. apply (f_equal (@rev N)) in H. rewrite rev_involutive in H.
    apply trimStart_nil in H. rewrite <- (rev_involutive s).
    now apply Forall_rev.
  - intros H. apply Forall_rev in H. apply trimStart_nil in H. now rewrite H.
Qed.

(** [trim] leaves nothing exactly when there was only white space. *)
Lemma trim_nil (s : jsstring) :
  trim s = [] <-> Forall (fun c => isTrimmable c = true) s.
Proof.
  unfold trim. rewrite trimEnd_nil.
  destruct (trimStart_split s) as (ws & Hs & Hws). split.
  - intros H. rewrite Hs. apply Forall_app. now split.
  - intros H. rewrite Hs in H. now apply Forall_app in H.
Qed.

(** [trim s] is [s] without a run of white space at each end, and
    neither begins nor ends with white space. *)
Lemma trim_spec (s : jsstring) :
  exists before after,
    s = before ++ trim s ++ after
    /\ Forall (fun c => isTrimmable c = true) before
    /\ Forall (fun c => isTrimmable c = true) after
    /\ (forall c t, trim s = c :: t -> isTrimmable c = false)
    /\ (forall c t, trim s = t ++ [c] -> isTrimmable c = false).
Proof.
  destruct (trimStart_split s) as (before & Hs & Hb).
  destruct (trimStart_split (rev (trimStart s))) as (ws & Hr & Hws).
  exists before, (rev ws). unfold trim, trimEnd.
  assert (Hmid : trimStart s = rev (trimStart (rev (trimStart s))) ++ rev ws).
  { rewrite <- rev_app_distr, <- Hr. now rewrite rev_involutive. }
  repeat split.
  - now rewrite <- Hmid.
  - exact Hb.
  - now apply Forall_rev.
  - intros c t Ht. apply (trimStart_head s c (t ++ rev ws)).
    etransitivity; [exact Hmid|]. now rewrite Ht.
  - intros c t Ht. apply (f_equal (@rev N)) in Ht.
    rewrite rev_involutive, rev_app_distr in Ht. simpl in Ht.
    eapply trimStart_head; eauto.
Qed.

End JSStrings.

(** ** Score bands *)

Section ScoreBands.

Import ScoreDisplay.

Lemma isNumber_thresholds : isNumber 0.7 = true /\ isNumber 0.4 = true.
Proof. split; reflexivity. Qed.

(** NaN compares false with everything and so falls in the last band. *)
Lemma nan_rendered_low : scoreBarTier nan = Some Low /\ similarityTier nan = Some Low.
Proof. split; reflexivity. Qed.

(** C1. A score that is a number is rendered High exactly when it is
    [>= 0.7], Medium exactly when it is [>= 0.4] and [< 0.7], Low exactly
    when it is [< 0.4]; the score bar, the evidence label and the legend
    agree on the bands. *)
Theorem tier_bands (s : float) :
  isNumber s = true ->
  (scoreBarTier s = Some High <-> geb s 0.7 = true)
  /\ (scoreBarTier s = Some Medium <-> geb s 0.4 = true /\ ltb s 0.7 = true)
  /\ (scoreBarTier s = Some Low <-> ltb s 0.4 = true)
  /\ similarityTier s = scoreBarTier s
  /\ (forall cls t, In (cls, t) legend -> tierOfClass cls = Some t).
Proof.
  intros Hs.
  destruct isNumber_thresholds as [H7 H4].
  rewrite (ltb_negb_geb s 0.7 Hs H7), (ltb_negb_geb s 0.4 Hs H4).
  pose proof (geb_high_medium s) as Hmono.
  unfold scoreBarTier, similarityTier, scoreBarClass, similarityClass.
  destruct (geb s 0.7) eqn:E7; [rewrite (Hmono eq_refl)|destruct (geb s 0.4) eqn:E4];
    cbn; (repeat split; try intros [? ?]; try congruence; try discriminate);
    intros cls t [[= <- <-]|[[= <- <-]|[[= <- <-]|[]]]]; reflexivity.
Qed.

Lemma tier_bands_witness :
  isNumber 0.5 = true
  /\ scoreBarTier 0.5 = Some Medium /\ similarityTier 0.5 = Some Medium.
Proof.
  split; [reflexivity|].
  destruct (tier_bands 0.5 eq_refl) as (_ & Hm & _ & Hs & _).
  rewrite Hs. split; apply Hm; split; reflexivity.
Defined.


Example scoreBar_at_thresholds :
  map scoreBarClass [1; 0.7; 0.6999; 0.4; 0.3999; 0]%float
  = ["bg-green-500"; "bg-green-500"; "bg-yellow-500"; "bg-yellow-500";
     "bg-red-500"; "bg-red-500"].
Proof. reflexivity. Qed.

End ScoreBands.

(** ** Stance rendering *)

Section StanceRendering.

Import ScoreDisplay.

(** C7. A stance is one of the three strings, and the rendering is
    defined on every string: green for [supports], red for
    [contradicts], gray for anything else, [neutral] included. *)
Theorem stance_rendering_total :
  (forall st : Types.Stance,
      In (Types.stanceString st) ["supports"; "contradicts"; "neutral"])
  /\ (forall stance : string,
        (stance = "supports"
         /\ getStanceIcon stance = (CheckCircleIcon, "h-6 w-6 text-green-500")
         /\ getStanceColor stance = "text-green-700 bg-green-50 border-green-200")
        \/ (stance = "contradicts"
            /\ getStanceIcon stance = (XCircleIcon, "h-6 w-6 text-red-500")
            /\ getStanceColor stance = "text-red-700 bg-red-50 border-red-200")
        \/ (stance <> "supports" /\ stance <> "contradicts"
            /\ getStanceIcon stance = (MinusCircleIcon, "h-6 w-6 text-gray-500")
            /\ getStanceColor stance = "text-gray-700 bg-gray-50 border-gray-200"))
  /\ getStanceIcon (Types.stanceString Types.neutral)
     = (MinusCircleIcon, "h-6 w-6 text-gray-500")
  /\ getStanceColor (Types.stanceString Types.neutral)
     = "text-gray-700 bg-gray-50 border-gray-200".
Proof.
  split; [|split; [|split; reflexivity]].
  - intros []; simpl; auto.
  - intros stance. unfold getStanceIcon, getStanceColor.
    destruct (String.eqb_spec stance "supports") as [->|Hs]; [left; auto|].
    destruct (String.eqb_spec stance "contradicts") as [->|Hc]; [right; left; auto|].
    right; right; auto.
Qed.

End StanceRendering.

(** ** The assessment page *)

Section AssessmentPageFacts.

Import JS UI AssessmentPage Spec.

Variable origin : jsstring.

Lemma feedbackScores_app (es1 es2 : list Effect) :
  feedbackScores (es1 ++ es2) = feedbackScores es1 ++ feedbackScores es2.
Proof. unfold feedbackScores, requests. now rewrite !flat_map_app. Qed.

Lemma handleFeedback_scores (st : State) (score : Z) :
  feedbackScores (snd (handleFeedback st score)) = [score]
  \/ feedbackScores (snd (handleFeedback st score)) = [].
Proof.
  unfold handleFeedback. destruct (assessment st); [left|right]; reflexivity.
Qed.

Lemma step_scores (st : State) (ev : Event) :
  Forall (fun score => score = 1 \/ score = -1)%Z
         (feedbackScores (snd (step origin st ev))).
Proof.
  assert (Hshare : feedbackScores (handleShare origin st) = []).
  { unfold handleShare.
    destruct (assessment st) as [a|]; [|reflexivity].
    destruct (Types.share_id a) as [sid|]; [|reflexivity].
    now destruct (truthy sid). }
  destruct ev as [result|detail| |url written| | |value|score rejected]; simpl.
  - constructor.
  - constructor.
  - destruct (shareButtonRendered st); simpl; [rewrite Hshare|]; constructor.
  - destruct written; constructor.
  - destruct (feedbackButtonsEnabled st); [|constructor].
    destruct (handleFeedback_scores st 1) as [-> | ->]; auto.
  - destruct (feedbackButtonsEnabled st); [|constructor].
    destruct (handleFeedback_scores st (-1)) as [-> | ->]; auto.
  - destruct (feedbackButtonsEnabled st); constructor.
  - destruct rejected; constructor.
Qed.

(** C2. Whatever happens on the page, every feedback request it sends
    carries the score 1 or -1: the Helpful button sends 1, the Not
    Helpful button sends -1, and nothing else sends feedback. *)
Theorem feedback_score_plus_or_minus_one :
  (forall (evs : list Event) (st : State),
      Forall (fun score => score = 1 \/ score = -1)%Z
             (feedbackScores (snd (run origin st evs))))
  /\ (forall st : State,
        feedbackButtonsEnabled st = true ->
        feedbackScores (snd (step origin st ClickHelpful)) = [1%Z]
        /\ feedbackScores (snd (step origin st ClickNotHelpful)) = [(-1)%Z]).
Proof.
  split.
  - intros evs. induction evs as [|ev evs IH]; intros st; simpl.
    + constructor.
    + pose proof (step_scores st ev) as Hstep.
      destruct (step origin st ev) as [st1 es1].
      specialize (IH st1). destruct (run origin st1 evs) as [st2 es2].
      simpl in *. rewrite feedbackScores_app. apply Forall_app. now split.
  - intros st Hen. simpl. rewrite Hen.
    unfold feedbackButtonsEnabled, view in Hen. unfold handleFeedback.
    destruct (isLoading st); [discriminate|].
    destruct (assessment st); [|discriminate].
    split; reflexivity.
Qed.

(** Sharing never talks to the server. *)
Lemma share_sends_no_request (st : State) (url : jsstring) (written : bool) :
  requests (handleShare origin st) = []
  /\ requests (handleShareSettled url written) = [].
Proof.
  unfold handleShare, handleShareSettled. split.
  - destruct (assessment st) as [a|]; [|reflexivity].
    destruct (Types.share_id a) as [sid|]; [|reflexivity].
    now destruct (truthy sid).
  - now destruct written.
Qed.

(** C10. With an assessment that has no share id, the Share button
    leaves the page as it is and does nothing at all: no clipboard
    write, no toast, no request. *)
Theorem share_without_id_is_inert (st : State) (a : Types.Assessment) :
  assessment st = Some a ->
  Types.share_id a = None ->
  handleShare origin st = [] /\ step origin st ClickShare = (st, []).
Proof.
  intros Ha Hs. unfold step, handleShare. rewrite Ha, Hs.
  split; [reflexivity|]. now destruct (shareButtonRendered st).
Qed.

End AssessmentPageFacts.

Lemma share_without_id_is_inert_witness :
  AssessmentPage.handleShare Samples.origin Samples.loadedPage = []
  /\ AssessmentPage.step Samples.origin Samples.loadedPage AssessmentPage.ClickShare
     = (Samples.loadedPage, []).
Proof.
  apply (share_without_id_is_inert Samples.origin Samples.loadedPage
           Samples.unsharedAssessment); reflexivity.
Defined.

Example helpful_then_not_helpful :
  UI.requests
    (snd (AssessmentPage.run Samples.origin Samples.loadedPage
            [AssessmentPage.ChangeComment (JS.lit "clear");
             AssessmentPage.ClickHelpful;
             AssessmentPage.ClickNotHelpful;
             AssessmentPage.FeedbackSettled 1 None;
             AssessmentPage.ClickNotHelpful]))
  = [Api.PostFeedback 7 1 (Some (JS.lit "clear"))].
Proof. reflexivity. Qed.

(** ** Claim submission *)

Section ClaimSubmission.

Import JS UI Spec.

Lemma truthy_false (s : jsstring) : truthy s = false <-> s = [].
Proof. destruct s; simpl; split; congruence. Qed.

Lemma truthy_true (s : jsstring) : truthy s = true <-> s <> [].
Proof. destruct s; simpl; split; congruence. Qed.

(** C3. A claim that trims to nothing is not submitted: [handleSubmit]
    does not call [onSubmit], the Analyze button is disabled, and no
    request leaves the page. Any other claim is submitted trimmed, and
    whatever request the form makes carries the trimmed text. *)
Theorem claim_submitted_trimmed (claim : jsstring) :
  (trim claim = [] ->
     ClaimInput.handleSubmit claim = [PreventDefault]
     /\ (forall isLoading, ClaimInput.submitDisabled isLoading claim = true)
     /\ (forall document isLoading,
           requests (HomePage.submitClaimForm document isLoading claim) = []))
  /\ (trim claim <> [] ->
       ClaimInput.handleSubmit claim = [PreventDefault; OnSubmit (trim claim)]
       /\ ClaimInput.submitDisabled false claim = false
       /\ (forall d,
             HomePage.submitClaimForm (Some d) false claim
             = [PreventDefault; SetIsLoading true;
                Call (Api.createAssessment (Types.doc_id d) (trim claim))]))
  /\ (forall document isLoading r,
        In r (requests (HomePage.submitClaimForm document isLoading claim)) ->
        exists d, document = Some d
                  /\ r = Api.createAssessment (Types.doc_id d) (trim claim)).
Proof.
  unfold HomePage.submitClaimForm, ClaimInput.submitDisabled, ClaimInput.handleSubmit.
  split; [|split].
  - intros He. rewrite He. simpl. repeat split.
    + intros b. apply orb_true_r.
    + intros [d|] b; [|reflexivity]. now rewrite orb_true_r.
  - intros Hne. apply truthy_true in Hne. rewrite Hne. simpl. repeat split.
  - intros [d|] b r; [|intros []].
    destruct (truthy (trim claim)), b; simpl; try contradiction.
    intros [<-|[]]. now exists d.
Qed.

Example trim_example :
  trim (lit "  Exercise helps ") = lit "Exercise helps"
  /\ trim [0x00A0; 0x2028; 0xFEFF; 0x0009] = [].
Proof. split; reflexivity. Qed.

End ClaimSubmission.

(** ** File upload *)

Section FileUploadFacts.

Import JS UI Spec FileUpload.

Lemma includes_allowedTypes (t : jsstring) :
  includes allowedTypes t = true
  <-> t = lit "application/pdf"
      \/ t = lit "application/vnd.openxmlformats-officedocument.wordprocessingml.document".
Proof.
  unfold includes, allowedTypes. cbn [existsb].
  rewrite !orb_true_iff, !bool_decide_eq_true. split.
  - intros [H|[H|H]]; [left|right|discriminate]; now symmetry.
  - intros [H|H]; [left|right; left]; now symmetry.
Qed.

Lemma size_limit : 50 * 1024 * 1024 = 52428800.
Proof. reflexivity. Qed.

(** What [onDrop] does with its first file, by cases. *)
Lemma onDrop_cases (file : Api.File) (others : list Api.File) :
  (acceptable file
   /\ onDrop (file :: others) = [SetIsLoading true; Call (Api.uploadFile file)])
  \/ (~ acceptable file
      /\ exists msg, onDrop (file :: others) = [OnError msg]).
Proof.
  unfold onDrop, acceptable.
  destruct (includes allowedTypes (Api.type file)) eqn:Ht; cbn [negb].
  - apply includes_allowedTypes in Ht.
    rewrite size_limit.
    destruct (N.ltb_spec 52428800 (Api.size file)) as [Hbig|Hok].
    + right. split; [intros [_ H]; lia|eauto].
    + left. now split.
  - right. split; [|eauto].
    intros [H _]. apply includes_allowedTypes in H. congruence.
Qed.

(** C8. The dropped file is uploaded only when it is a PDF or a DOCX by
    MIME type and takes at most 52428800 bytes; any other file gets an
    error message and no request. *)
Theorem upload_only_acceptable (file : Api.File) (others : list Api.File) :
  (In (Call (Api.uploadFile file)) (onDrop (file :: others)) <-> acceptable file)
  /\ (forall r, In r (requests (onDrop (file :: others))) ->
                r = Api.uploadFile file /\ acceptable file)
  /\ (~ acceptable file ->
       (exists msg, onDrop (file :: others) = [OnError msg])
       /\ requests (onDrop (file :: others)) = []).
Proof.
  destruct (onDrop_cases file others) as [[Hok ->]|[Hbad [msg ->]]].
  - split; [|split].
    + split; [trivial|]. intros _. right. now left.
    + intros r [<-|[]]. now split.
    + intros H. contradiction.
  - split; [|split].
    + split; [|contradiction]. intros [H|[]]. discriminate.
    + intros r [].
    + intros _. split; [now exists msg|reflexivity].
Qed.

Example onDrop_examples :
  onDrop [Samples.paper 52428800]
  = [SetIsLoading true; Call (Api.PostUploadFile (Samples.paper 52428800))]
  /\ onDrop [Samples.paper 52428801] = [OnError (lit "File size must be less than 50MB")]
  /\ onDrop [Samples.notes] = [OnError (lit "Please upload a PDF or DOCX file")]
  /\ onDrop [] = [].
Proof. repeat split; reflexivity. Qed.

End FileUploadFacts.

(** ** DOI input *)

Section DoiInputFacts.

Import JS UI Spec DoiInput.

(** *** The matcher against the language of the expression *)

Lemma dotPlus_sound (s : jsstring) (k : jsstring -> option jsstring) (res : jsstring) :
  dotPlus s k = Some res ->
  exists x rest, s = x ++ rest /\ matches DotPlus x /\ k rest = Some res.
Proof.
  induction s as [|c s IH]; simpl; [discriminate|].
  destruct (isLineTerminator c) eqn:Hc; [discriminate|].
  destruct (dotPlus s k) as [r|] eqn:Hd.
  - intros [= ->]. destruct (IH eq_refl) as (x & rest & -> & Hx & Hk).
    exists (c :: x), rest. split; [reflexivity|]. split; [|exact Hk].
    inversion Hx; subst. constructor; [discriminate|now constructor].
  - intros Hk. exists [c], s. split; [reflexivity|]. split; [|exact Hk].
    constructor; [discriminate|now repeat constructor].
Qed.

Lemma exec_sound (r : Regex) :
  forall (s : jsstring) (k : jsstring -> option jsstring) (res : jsstring),
    exec r s k = Some res ->
    exists x rest, s = x ++ rest /\ matches r x /\ k rest = Some res.
Proof.
  induction r as [l|a IHa b IHb|a IHa|]; intros s k res; simpl.
  - destruct (stripPrefix l s) as [s'|] eqn:Hp; [|discriminate].
    apply stripPrefix_Some in Hp. intros Hk.
    exists l, s'. repeat split; [assumption|constructor|assumption].
  - intros H. apply IHa in H as (x & rest & -> & Hx & H).
    apply IHb in H as (y & rest' & -> & Hy & H).
    exists (x ++ y), rest'. rewrite <- app_assoc.
    repeat split; [now constructor|assumption].
  - destruct (exec a s k) as [r'|] eqn:Ha.
    + intros [= ->]. apply IHa in Ha as (x & rest & -> & Hx & H).
      exists x, rest. repeat split; [now constructor|assumption].
    + intros Hk. exists [], s. repeat split; [constructor|assumption].
  - apply dotPlus_sound.
Qed.

Lemma dotPlus_complete (x rest : jsstring) (k : jsstring -> option jsstring) :
  x <> [] -> Forall (fun c => isLineTerminator c = false) x ->
  is_Some (k rest) -> is_Some (dotPlus (x ++ rest) k).
Proof.
  intros Hne Hx Hk. induction Hx as [|c x Hc Hx IH]; [congruence|].
  simpl. rewrite Hc.
  destruct (dotPlus (x ++ rest) k) as [r|] eqn:Hd; [eauto|].
  destruct x as [|c' x']; [exact Hk|].
  assert (Hsome : is_Some (@None jsstring)) by (apply IH; discriminate).
  now destruct Hsome.
Qed.

Lemma exec_complete (r : Regex) (x : jsstring) :
  matches r x ->
  forall (rest : jsstring) (k : jsstring -> option jsstring),
    is_Some (k rest) -> is_Some (exec r (x ++ rest) k).
Proof.
  induction 1 as [l|a b x y Hx IHa Hy IHb|a|a x Hx IHa|x Hne Hx];
    intros rest k Hk; simpl.
  - now rewrite stripPrefix_app.
  - rewrite <- app_assoc. apply IHa. now apply IHb.
  - destruct (exec a rest k); [eauto|exact Hk].
  - destruct (IHa rest k Hk) as [res ->]. eauto.
  - now apply dotPlus_complete.
Qed.

(** [test] says whether some prefix of the string is matched. *)
Lemma test_spec (r : Regex) (s : jsstring) :
  test r s = true <-> exists x rest, s = x ++ rest /\ matches r x.
Proof.
  unfold test. split.
  - destruct (exec r s Some) as [res|] eqn:He; [|discriminate].
    intros _. apply exec_sound in He as (x & rest & Hs & Hx & _). eauto.
  - intros (x & rest & -> & Hx).
    destruct (exec_complete r x Hx rest Some) as [res ->]; eauto.
Qed.

(** *** The two expressions of the component *)

Lemma matches_doiPattern (x : jsstring) :
  matches doiPattern x
  <-> exists a b, x = lit "10." ++ a ++ lit "/" ++ b
                  /\ matches DotPlus a /\ matches DotPlus b.
Proof.
  unfold doiPattern. split.
  - intros H.
    inversion H as [|? ? x1 y1 H1 H2| | |]; subst; clear H.
    inversion H1; subst; clear H1.
    inversion H2 as [|? ? x2 y2 H3 H4| | |]; subst; clear H2.
    inversion H4 as [|? ? x3 y3 H5 H6| | |]; subst; clear H4.
    inversion H5; subst; clear H5.
    eauto.
  - intros (a & b & -> & Ha & Hb).
    apply matches_Seq; [constructor|].
    apply matches_Seq; [assumption|].
    apply matches_Seq; [constructor|assumption].
Qed.

Lemma doiPattern_shape (s : jsstring) :
  test doiPattern s = true <-> hasDoiShape s.
Proof.
  rewrite test_spec. unfold hasDoiShape. split.
  - intros (x & rest & -> & Hx).
    apply matches_doiPattern in Hx as (a & b & -> & Ha & Hb).
    inversion Ha as [| | | |? Hane Hafa]; subst.
    inversion Hb as [| | | |? Hbne Hbfa]; subst.
    destruct b as [|c b]; [congruence|]. inversion Hbfa; subst.
    exists a, c, (b ++ rest). repeat split; try assumption.
    now rewrite <- !app_assoc.
  - intros (a & c & rest & -> & Hane & Hafa & Hc).
    exists (lit "10." ++ a ++ lit "/" ++ [c]), rest. split.
    + now rewrite <- !app_assoc.
    + apply matches_doiPattern. exists a, [c]. repeat split.
      * now constructor.
      * constructor; [discriminate|now repeat constructor].
Qed.

Lemma matches_doiUrlPrefix (x : jsstring) :
  matches doiUrlPrefix x <-> In x doiUrlPrefixes.
Proof.
  unfold doiUrlPrefix. split.
  - intros H.
    inversion H as [|? ? x1 y1 H1 H2| | |]; subst; clear H.
    inversion H2 as [|? ? x2 y2 H3 H4| | |]; subst; clear H2.
    inversion H4; subst; clear H4.
    assert (Hhost : x2 = [] \/ x2 = lit "dx.").
    { inversion H3 as [| | |? ? H5|]; subst; [now left|].
      inversion H5; subst. now right. }
    assert (Hscheme : x1 = [] \/ x1 = lit "http://" \/ x1 = lit "https://").
    { inversion H1 as [| | |? ? H5|]; subst; [now left|].
      inversion H5 as [|? ? x3 y3 H6 H7| | |]; subst; clear H5.
      inversion H6; subst; clear H6.
      inversion H7 as [|? ? x4 y4 H8 H9| | |]; subst; clear H7.
      inversion H9; subst; clear H9.
      inversion H8 as [| | |? ? H10|]; subst; [right; now left|].
      inversion H10; subst. right; now right. }
    destruct Hscheme as [-> | [-> | ->]], Hhost as [-> | ->]; cbv; tauto.
  - intros Hin.
    assert (Hs : forall scheme host,
               matches (Opt (Seq (Lit (lit "http"))
                               (Seq (Opt (Lit (lit "s"))) (Lit (lit "://"))))) scheme ->
               matches (Opt (Lit (lit "dx."))) host ->
               matches doiUrlPrefix (scheme ++ host ++ lit "doi.org/")).
    { intros scheme host H1 H2.
      apply matches_Seq; [assumption|].
      apply matches_Seq; [assumption|constructor]. }
    assert (Hnone : forall a, matches (Opt a) []) by constructor.
    assert (Hdx : matches (Opt (Lit (lit "dx."))) (lit "dx.")) by repeat constructor.
    assert (Hhttp : matches (Opt (Seq (Lit (lit "http"))
                               (Seq (Opt (Lit (lit "s"))) (Lit (lit "://")))))
                            (lit "http://")).
    { apply matches_Opt_take.
      apply (matches_Seq _ _ (lit "http") ([] ++ lit "://")); repeat constructor. }
    assert (Hhttps : matches (Opt (Seq (Lit (lit "http"))
                               (Seq (Opt (Lit (lit "s"))) (Lit (lit "://")))))
                             (lit "https://")).
    { apply matches_Opt_take.
      apply (matches_Seq _ _ (lit "http") (lit "s" ++ lit "://")); repeat constructor. }
    unfold doiUrlPrefixes in Hin. simpl in Hin.
    destruct Hin as [<-|[<-|[<-|[<-|[<-|[<-|[]]]]]]].
    + apply (Hs [] []); auto.
    + apply (Hs [] (lit "dx.")); auto.
    + apply (Hs (lit "http://") []); auto.
    + apply (Hs (lit "http://") (lit "dx.")); auto.
    + apply (Hs (lit "https://") []); auto.
    + apply (Hs (lit "https://") (lit "dx.")); auto.
Qed.

(** [cleanDoi] removes the resolver prefix when there is one. *)
Lemma cleanDoi_stripsTo (doi : jsstring) : stripsTo doi (cleanDoi doi).
Proof.
  unfold cleanDoi, replaceEmpty, stripsTo.
  destruct (exec doiUrlPrefix doi Some) as [rest|] eqn:He.
  - left. apply exec_sound in He as (x & rest' & -> & Hx & [= ->]).
    exists x. split; [now apply matches_doiUrlPrefix|reflexivity].
  - right. split; [|reflexivity]. intros p rest Hp ->.
    apply matches_doiUrlPrefix in Hp.
    destruct (exec_complete _ _ Hp rest Some) as [res Hres]; [eauto|].
    congruence.
Qed.

End DoiInputFacts.

(** *** Submitting the form *)

Section DoiSubmission.

Import JS UI Spec DoiInput.

(** A string has at most one reading as prefix and DOI. *)
Lemma stripsTo_unique (doi c1 c2 : jsstring) :
  stripsTo doi c1 -> stripsTo doi c2 -> c1 = c2.
Proof.
  intros [(p1 & Hp1 & H1)|[Hno1 ->]] [(p2 & Hp2 & H2)|[Hno2 ->]].
  - rewrite H1 in H2. symmetry in H2. apply stripPrefix_Some in H2.
    unfold doiUrlPrefixes in Hp1, Hp2. simpl in Hp1, Hp2.
    destruct Hp1 as [<-|[<-|[<-|[<-|[<-|[<-|[]]]]]]];
      destruct Hp2 as [<-|[<-|[<-|[<-|[<-|[<-|[]]]]]]];
      vm_compute in H2; congruence.
  - exfalso. exact (Hno2 p1 c1 Hp1 H1).
  - exfalso. exact (Hno1 p2 c2 Hp2 H2).
  - reflexivity.
Qed.

(** An input that reads as a DOI begins with a visible character. *)
Lemma doi_not_blank (doi clean : jsstring) :
  stripsTo doi clean -> hasDoiShape clean -> truthy (trim doi) = true.
Proof.
  intros Hstrip (a & c & rest & -> & _).
  assert (Hhead : exists c0 t, doi = c0 :: t /\ isTrimmable c0 = false).
  { destruct Hstrip as [(p & Hp & ->)|[_ <-]].
    - unfold doiUrlPrefixes in Hp. simpl in Hp.
      destruct Hp as [<-|[<-|[<-|[<-|[<-|[<-|[]]]]]]];
        eexists _, _; (split; [reflexivity|reflexivity]).
    - eexists _, _; (split; [reflexivity|reflexivity]). }
  destruct Hhead as (c0 & t & -> & Hc0).
  apply truthy_true. intros Hnil. apply trim_nil in Hnil.
  inversion Hnil; congruence.
Qed.

(** [handleSubmit] by cases on the shape of the cleaned input. *)
Lemma handleSubmit_cases (doi : jsstring) :
  (hasDoiShape (cleanDoi doi)
   /\ handleSubmit doi
      = [PreventDefault; SetIsLoading true; Call (Api.uploadFromDoi (cleanDoi doi))])
  \/ (~ hasDoiShape (cleanDoi doi)
      /\ exists msg, handleSubmit doi = [PreventDefault; OnError msg]).
Proof.
  unfold handleSubmit.
  destruct (test doiPattern (cleanDoi doi)) eqn:Ht.
  - apply doiPattern_shape in Ht. left. split; [assumption|].
    now rewrite (doi_not_blank doi _ (cleanDoi_stripsTo doi) Ht).
  - right. split.
    + intros H. apply doiPattern_shape in H. congruence.
    + destruct (truthy (trim doi)); simpl; eauto.
Qed.

(** C9. Let [clean] be the input without its optional resolver prefix
    ([http://] or [https://], [dx.], [doi.org/]). A fetch request is
    issued exactly when [clean] has the shape [^10\..+/.+]; the request
    then carries [clean]; otherwise an error is reported and nothing is
    requested. *)
Theorem doi_request_iff_valid (doi clean : jsstring) :
  stripsTo doi clean ->
  ((exists x, In (Call (Api.uploadFromDoi x)) (handleSubmit doi)) <-> hasDoiShape clean)
  /\ (forall r, In r (requests (handleSubmit doi)) -> r = Api.uploadFromDoi clean)
  /\ (hasDoiShape clean ->
       handleSubmit doi
       = [PreventDefault; SetIsLoading true; Call (Api.uploadFromDoi clean)])
  /\ (~ hasDoiShape clean ->
       (exists msg, handleSubmit doi = [PreventDefault; OnError msg])
       /\ requests (handleSubmit doi) = []).
Proof.
  intros Hstrip.
  rewrite (stripsTo_unique doi clean (cleanDoi doi) Hstrip (cleanDoi_stripsTo doi)).
  destruct (handleSubmit_cases doi) as [[Hok ->]|[Hbad [msg ->]]].
  - repeat split; try tauto.
    + intros _. eexists. right. right. now left.
    + intros r [<-|[]]. reflexivity.
  - repeat split; try tauto.
    + intros [x [H|[H|[]]]]; discriminate.
    + intros r [].
    + now exists msg.
Qed.

Lemma doi_request_iff_valid_witness :
  handleSubmit (lit "https://doi.org/10.1000/123456")
  = [PreventDefault; SetIsLoading true; Call (Api.uploadFromDoi (lit "10.1000/123456"))].
Proof.
  destruct (doi_request_iff_valid (lit "https://doi.org/10.1000/123456")
              (lit "10.1000/123456")) as (_ & _ & H & _).
  - left. exists (lit "https://doi.org/"). split; [|reflexivity].
    do 4 right. left. reflexivity.
  - apply H. exists (lit "1000"), 49, (lit "23456").
    split; [reflexivity|]. split; [discriminate|].
    split; [repeat constructor|reflexivity].
Defined.

Example handleSubmit_examples :
  handleSubmit (lit "dx.doi.org/10.1000/123456")
  = [PreventDefault; SetIsLoading true; Call (Api.PostUploadDoi (lit "10.1000/123456"))]
  /\ handleSubmit (lit " 10.1000/123456")
     = [PreventDefault; OnError (lit "Please enter a valid DOI (e.g., 10.1000/123456)")]
  /\ handleSubmit (lit "https://10.1000/123456")
     = [PreventDefault; OnError (lit "Please enter a valid DOI (e.g., 10.1000/123456)")]
  /\ handleSubmit (lit "10.1000/")
     = [PreventDefault; OnError (lit "Please enter a valid DOI (e.g., 10.1000/123456)")]
  /\ handleSubmit (lit "   ") = [PreventDefault; OnError (lit "Please enter a DOI")].
Proof. repeat split; reflexivity. Qed.

End DoiSubmission.

(** ** The engine's contract *)

Section EngineFacts.

Import JS Engine.

Local Open Scope Q_scope.

(** *** Ranking and retrieval *)

#[local] Instance ranksBefore_total : Total ranksBefore.
Proof.
  intros a b. unfold ranksBefore.
  destruct (Q_dec (similarity a) (similarity b)) as [[Hlt|Hgt]|Heq].
  - right. now left.
  - left. now left.
  - destruct (N.le_ge_cases (sentence_index a) (sentence_index b)) as [Hi|Hi].
    + left. right. now split.
    + right. right. split; [now symmetry|assumption].
Qed.

#[local] Instance ranksBefore_trans : Transitive ranksBefore.
Proof.
  intros a b c [Hab|[Hab Iab]] [Hbc|[Hbc Ibc]]; unfold ranksBefore.
  - left. lra.
  - left. lra.
  - left. lra.
  - right. split; [lra|lia].
Qed.

Lemma In_firstn {A : Type} (n : nat) (l : list A) (x : A) :
  In x (firstn n l) -> In x l.
Proof.
  intros H. rewrite <- (firstn_skipn n l). apply in_or_app. now left.
Qed.

Lemma StronglySorted_firstn {A : Type} (R : relation A) (n : nat) (l : list A) :
  StronglySorted R l -> StronglySorted R (firstn n l).
Proof.
  intros Hl. revert n. induction Hl as [|x l Hl IH Hx]; intros [|n]; simpl;
    try constructor.
  - apply IH.
  - rewrite List.Forall_forall in *. intros y Hy. apply Hx.
    revert Hy. apply In_firstn.
Qed.

Lemma retrieve_incl (k : nat) (m : Q) (sentences : list ScoredSentence) (s : ScoredSentence) :
  In s (retrieve k m sentences) -> In s sentences /\ m <= similarity s.
Proof.
  unfold retrieve. intros H. apply In_firstn in H.
  apply list_elem_of_In in H. rewrite merge_sort_Permutation in H.
  apply list_elem_of_In in H. apply List.filter_In in H as [Hin Hq].
  split; [assumption|]. now apply Qle_bool_iff.
Qed.

(** C6. The evidence of an assessment is in ranking order (similarity
    descending, ties by ascending sentence index) and holds at most [K]
    snippets, [K] being 5 by default; every snippet is a qualifying
    sentence of the document. *)
Theorem evidence_sorted_top_k (cfg : Config) (sentences : list ScoredSentence)
    (entailment quality : Q) :
  let a := createAssessment cfg sentences entailment quality in
  StronglySorted ranksBefore (evidence_snippets a)
  /\ (length (evidence_snippets a) <= K cfg)%nat
  /\ (forall s, In s (evidence_snippets a) ->
                In s sentences /\ minSimilarity cfg <= similarity s)
  /\ K defaultConfig = 5%nat.
Proof.
  simpl. unfold retrieve. split; [|split; [|split]].
  - apply StronglySorted_firstn, StronglySorted_merge_sort; apply _.
  - apply firstn_le_length.
  - intros s. apply retrieve_incl.
  - reflexivity.
Qed.

(** *** Confidence fusion *)

Lemma clamp01_bounds (x : Q) : 0 <= clamp01 x /\ clamp01 x <= 1.
Proof.
  unfold clamp01.
  destruct (Qlt_le_dec x 0); [lra|]. destruct (Qlt_le_dec 1 x); lra.
Qed.

Lemma clamp01_id (x : Q) : 0 <= x -> x <= 1 -> clamp01 x == x.
Proof.
  intros H0 H1. unfold clamp01.
  destruct (Qlt_le_dec x 0); [lra|]. destruct (Qlt_le_dec 1 x); lra.
Qed.

Lemma defaultWeights_valid : validWeights defaultWeights.
Proof. unfold validWeights, defaultWeights; simpl. repeat split; lra. Qed.

Lemma weighted_term_bounds (w x : Q) :
  0 <= w -> 0 <= x <= 1 -> 0 <= w * x <= w.
Proof.
  intros Hw [H0 H1]. split.
  - now apply Qmult_le_0_compat.
  - rewrite <- (Qmult_1_r w) at 2. rewrite !(Qmult_comm w).
    now apply Qmult_le_compat_r.
Qed.

(** A convex combination of scores in [0,1] is in [0,1]. *)
Lemma weightedSum_bounds (w : Weights) (s e q v : Q) :
  validWeights w ->
  0 <= s <= 1 -> 0 <= e <= 1 -> 0 <= q <= 1 -> 0 <= v <= 1 ->
  0 <= weightedSum w s e q v <= 1.
Proof.
  intros (H1 & H2 & H3 & H4 & Hsum) Hs He Hq Hv. unfold weightedSum.
  pose proof (weighted_term_bounds _ _ H1 Hs).
  pose proof (weighted_term_bounds _ _ H2 He).
  pose proof (weighted_term_bounds _ _ H3 Hq).
  pose proof (weighted_term_bounds _ _ H4 Hv).
  split; lra.
Qed.

Lemma sumSimilarity_bounds (evidence : list ScoredSentence) :
  Forall (fun s => 0 <= similarity s <= 1) evidence ->
  0 <= sumSimilarity evidence <= inject_Z (Z.of_nat (length evidence)).
Proof.
  induction 1 as [|s l Hs Hl IH].
  - split; apply Qle_refl.
  - cbn [sumSimilarity fold_right length].
    change (fold_right (fun s acc => similarity s + acc) 0 l) with (sumSimilarity l).
    rewrite Nat2Z.inj_succ, <- Z.add_1_r, inject_Z_plus.
    change (inject_Z 1) with 1. lra.
Qed.

Lemma evidenceStrength_bounds (evidence : list ScoredSentence) :
  Forall (fun s => 0 <= similarity s <= 1) evidence ->
  0 <= evidenceStrength evidence <= 1.
Proof.
  intros H. pose proof (sumSimilarity_bounds evidence H) as [Hlo Hhi].
  unfold evidenceStrength. destruct evidence as [|s l]; [lra|].
  set (n := inject_Z (Z.of_nat (length (s :: l)))) in *.
  assert (Hn : 0 < n).
  { unfold n. change 0 with (inject_Z 0). rewrite <- Zlt_Qlt. simpl length. lia. }
  split.
  - apply Qle_shift_div_l; [assumption|lra].
  - apply Qle_shift_div_r; [assumption|lra].
Qed.

Lemma bestSimilarity_bounds (evidence : list ScoredSentence) :
  Forall (fun s => 0 <= similarity s <= 1) evidence ->
  0 <= bestSimilarity evidence <= 1.
Proof. intros [|s l Hs _]; simpl; [lra|assumption]. Qed.

(** C5. The confidence of an assessment lies in [0,1] and is the
    weighted sum of its similarity, entailment, quality and evidence
    strength scores, clamped to [0,1]; the default weights 0.25, 0.35,
    0.20, 0.20 sum to 1; and with weights that sum to 1 and inputs in
    [0,1] the clamp is idle, so the confidence is the weighted sum. *)
Theorem confidence_bounded_weighted_sum (cfg : Config)
    (sentences : list ScoredSentence) (entailment quality : Q) :
  let a := createAssessment cfg sentences entailment quality in
  let sum := weightedSum (weights cfg) (similarity_score a) (entailment_score a)
               (method_quality_score a) (evidence_strength_score a) in
  (0 <= confidence_score a /\ confidence_score a <= 1)
  /\ confidence_score a == clamp01 sum
  /\ (validWeights (weights cfg) ->
       Forall (fun s => 0 <= similarity s <= 1) sentences ->
       0 <= entailment <= 1 -> 0 <= quality <= 1 ->
       confidence_score a == sum)
  /\ validWeights defaultWeights
  /\ weights defaultConfig
     = {| w_similarity := 0.25; w_entailment := 0.35;
          w_quality := 0.20; w_evidence_strength := 0.20 |}.
Proof.
  cbn zeta. cbn [createAssessment confidence_score similarity_score entailment_score
                 method_quality_score evidence_strength_score].
  unfold fuse. split; [apply clamp01_bounds|]. split; [reflexivity|].
  split; [|split; [apply defaultWeights_valid|reflexivity]].
  intros Hw Hs He Hq.
  assert (Hev : Forall (fun s => 0 <= similarity s <= 1)
                       (retrieve (K cfg) (minSimilarity cfg) sentences)).
  { rewrite List.Forall_forall in *. intros s Hin.
    apply Hs. now apply retrieve_incl in Hin. }
  apply clamp01_id;
    apply weightedSum_bounds; auto using bestSimilarity_bounds, evidenceStrength_bounds.
Qed.

(** *** Share ids *)

(** C4. The first [ensureShareId] on an assessment returns its share id,
    drawing one if it has none yet; a second call returns the identical
    id and leaves the store as the first call left it, and so does every
    later call. *)
Theorem ensureShareId_idempotent (newShareId : gmap Z Assessment -> jsstring)
    (store : gmap Z Assessment) (assessmentId : Z) (a : Assessment) :
  store !! assessmentId = Some a ->
  exists sid store1,
    ensureShareId newShareId assessmentId store = Some (sid, store1)
    /\ ensureShareId newShareId assessmentId store1 = Some (sid, store1)
    /\ (forall sid0, share_id a = Some sid0 -> sid = sid0 /\ store1 = store)
    /\ (share_id a = None -> sid = newShareId store).
Proof.
  intros Ha. unfold ensureShareId. rewrite Ha.
  destruct (share_id a) as [sid0|] eqn:Hs.
  - exists sid0, store. rewrite Ha, Hs.
    repeat split; congruence.
  - eexists _, _. split; [reflexivity|].
    rewrite lookup_insert_eq. simpl.
    repeat split; congruence.
Qed.

Lemma ensureShareId_idempotent_witness :
  exists sid store1,
    ensureShareId (fun _ => lit "k3x9") 7 {[7%Z := Samples.stored]} = Some (sid, store1)
    /\ ensureShareId (fun _ => lit "k3x9") 7 store1 = Some (sid, store1)
    /\ (forall sid0, share_id Samples.stored = Some sid0 ->
                     sid = sid0 /\ store1 = {[7%Z := Samples.stored]})
    /\ (share_id Samples.stored = None -> sid = lit "k3x9").
Proof.
  apply (ensureShareId_idempotent (fun _ => lit "k3x9") {[7%Z := Samples.stored]}
           7 Samples.stored).
  apply lookup_singleton_eq.
Defined.

Example sample_evidence :
  map sentence_index (evidence_snippets Samples.stored) = [1; 0; 2]%N.
Proof. reflexivity. Qed.

Example sample_confidence :
  confidence_score Samples.stored == 0.25 * 0.9 + 0.35 * 0.6 + 0.20 * 0.5 + 0.20 * (1.9 / 3).
Proof. vm_compute. reflexivity. Qed.

End EngineFacts.

(** * Further properties of the client *)

(** Splits a conjunction while its left part holds by computation. *)
Ltac split_refl := repeat (split; [reflexivity|]).

(** ** What a claim is submitted as *)

Section ClaimText.

Import JS UI.

Lemma trimStart_id (s : jsstring) :
  (forall c t, s = c :: t -> isTrimmable c = false) -> trimStart s = s.
Proof.
  destruct s as [|c t]; [reflexivity|]. intros H. simpl.
  now rewrite (H c t eq_refl).
Qed.

Lemma trimEnd_id (s : jsstring) :
  (forall c t, s = t ++ [c] -> isTrimmable c = false) -> trimEnd s = s.
Proof.
  intros H. unfold trimEnd. rewrite trimStart_id; [apply rev_involutive|].
  intros c t Hr. apply (H c (rev t)).
  rewrite <- (rev_involutive s), Hr. reflexivity.
Qed.

(** Trimming twice is trimming once. *)
Lemma trim_idempotent (s : jsstring) : trim (trim s) = trim s.
Proof.
  destruct (trim_spec s) as (before & after & _ & _ & _ & Hhead & Hlast).
  unfold trim at 1. rewrite (trimStart_id _ Hhead). now apply trimEnd_id.
Qed.

(** The text [ClaimInput] hands to [onSubmit] is the input without the
    white space around it: it is not empty, and neither begins nor ends
    with white space. *)
Theorem submitted_claim_is_stripped (claim c : jsstring) :
  In (OnSubmit c) (ClaimInput.handleSubmit claim) ->
  c <> []
  /\ (exists before after,
        claim = before ++ c ++ after
        /\ Forall (fun x => isTrimmable x = true) before
        /\ Forall (fun x => isTrimmable x = true) after)
  /\ (forall x t, c = x :: t -> isTrimmable x = false)
  /\ (forall x t, c = t ++ [x] -> isTrimmable x = false).
Proof.
  unfold ClaimInput.handleSubmit.
  destruct (truthy (trim claim)) eqn:Ht; simpl.
  - intros [H|[H|[]]]; [discriminate|]. injection H as <-.
    destruct (trim_spec claim) as (before & after & Hs & Hb & Ha & Hhead & Hlast).
    split; [now apply truthy_true|]. split; [|now split].
    exists before, after. now repeat split.
  - intros [H|[]]. discriminate.
Qed.

Lemma submitted_claim_is_stripped_witness :
  lit "a b" <> []
  /\ (exists before after,
        lit " a b  " = before ++ lit "a b" ++ after
        /\ Forall (fun x => isTrimmable x = true) before
        /\ Forall (fun x => isTrimmable x = true) after)
  /\ (forall x t, lit "a b" = x :: t -> isTrimmable x = false)
  /\ (forall x t, lit "a b" = t ++ [x] -> isTrimmable x = false).
Proof.
  apply (submitted_claim_is_stripped (lit " a b  ") (lit "a b")).
  right. left. reflexivity.
Defined.

(** Submitting the text that was sent sends it again unchanged. *)
Theorem claim_resubmission_stable (claim : jsstring) :
  ClaimInput.handleSubmit (trim claim) = ClaimInput.handleSubmit claim
  /\ (forall document isLoading,
        HomePage.submitClaimForm document isLoading (trim claim)
        = HomePage.submitClaimForm document isLoading claim).
Proof.
  unfold HomePage.submitClaimForm, ClaimInput.submitDisabled, ClaimInput.handleSubmit.
  now rewrite trim_idempotent.
Qed.

End ClaimText.

(** ** DOIs through the form *)

Section DoiRoundTrips.

Import JS UI Spec DoiInput.

(** Each of the six resolver prefixes is removed, whatever follows. *)
Lemma cleanDoi_app_prefix (p d : jsstring) :
  In p doiUrlPrefixes -> cleanDoi (p ++ d) = d.
Proof.
  intros Hp. apply (stripsTo_unique (p ++ d)); [apply cleanDoi_stripsTo|].
  left. now exists p.
Qed.

Lemma handleSubmit_accepts (doi : jsstring) :
  hasDoiShape (cleanDoi doi) ->
  handleSubmit doi
  = [PreventDefault; SetIsLoading true; Call (Api.uploadFromDoi (cleanDoi doi))].
Proof.
  intros Hshape. destruct (handleSubmit_cases doi) as [[_ H]|[Hbad _]];
    [exact H|contradiction].
Qed.

(** A string of DOI shape carries no resolver prefix. *)
Lemma cleanDoi_shape_id (d : jsstring) : hasDoiShape d -> cleanDoi d = d.
Proof.
  intros (a & c & rest & -> & _).
  apply (stripsTo_unique (lit "10." ++ a ++ lit "/" ++ c :: rest));
    [apply cleanDoi_stripsTo|].
  right. split; [|reflexivity]. intros p rest' Hp.
  unfold doiUrlPrefixes in Hp. simpl in Hp.
  destruct Hp as [<-|[<-|[<-|[<-|[<-|[<-|[]]]]]]]; discriminate.
Qed.

Lemma doi_request_shape (doi x : jsstring) :
  In (Call (Api.uploadFromDoi x)) (handleSubmit doi) ->
  x = cleanDoi doi /\ hasDoiShape (cleanDoi doi).
Proof.
  destruct (handleSubmit_cases doi) as [[Hok ->]|[_ [msg ->]]].
  - intros [H|[H|[H|[]]]]; try discriminate. injection H as <-. now split.
  - intros [H|[H|[]]]; discriminate.
Qed.

(** A DOI written with any of the six resolver prefixes, or with none,
    is fetched as the same bare DOI. *)
Theorem doi_spellings_agree (p d : jsstring) :
  In p doiUrlPrefixes ->
  hasDoiShape d ->
  handleSubmit (p ++ d)
  = [PreventDefault; SetIsLoading true; Call (Api.uploadFromDoi d)]
  /\ handleSubmit d = handleSubmit (p ++ d).
Proof.
  intros Hp Hshape.
  pose proof (cleanDoi_app_prefix p d Hp) as Hp'.
  pose proof (cleanDoi_shape_id d Hshape) as Hd'.
  rewrite (handleSubmit_accepts (p ++ d)) by now rewrite Hp'.
  rewrite (handleSubmit_accepts d) by now rewrite Hd'.
  now rewrite Hp', Hd'.
Qed.

Lemma doi_spellings_agree_witness :
  handleSubmit (lit "http://dx.doi.org/" ++ lit "10.5/x")
  = [PreventDefault; SetIsLoading true; Call (Api.uploadFromDoi (lit "10.5/x"))]
  /\ handleSubmit (lit "10.5/x") = handleSubmit (lit "http://dx.doi.org/" ++ lit "10.5/x").
Proof.
  apply (doi_spellings_agree (lit "http://dx.doi.org/") (lit "10.5/x")).
  - do 3 right. left. reflexivity.
  - exists (lit "5"), 120, []. split; [reflexivity|]. split; [discriminate|].
    split; [repeat constructor|reflexivity].
Defined.

(** The DOI a submission fetches can be submitted as it is, and fetches
    itself. *)
Theorem fetched_doi_is_fixed (doi x : jsstring) :
  In (Call (Api.uploadFromDoi x)) (handleSubmit doi) ->
  cleanDoi x = x
  /\ handleSubmit x = [PreventDefault; SetIsLoading true; Call (Api.uploadFromDoi x)].
Proof.
  intros Hin.
  destruct (doi_request_shape doi x Hin) as [-> Hshape].
  pose proof (cleanDoi_shape_id _ Hshape) as Hid.
  split; [exact Hid|].
  rewrite (handleSubmit_accepts (cleanDoi doi)) by now rewrite Hid.
  now rewrite Hid.
Qed.

Lemma fetched_doi_is_fixed_witness :
  cleanDoi (lit "10.5/x") = lit "10.5/x"
  /\ handleSubmit (lit "10.5/x")
     = [PreventDefault; SetIsLoading true; Call (Api.uploadFromDoi (lit "10.5/x"))].
Proof.
  apply (fetched_doi_is_fixed (lit "doi.org/10.5/x") (lit "10.5/x")).
  do 2 right. left. reflexivity.
Defined.

End DoiRoundTrips.

(** ** Citations *)

Section CitationLinks.

Import JS UI Spec Citations.

(** A citation card carries at most one link: the DOI link when the
    citation has a DOI, else the source link when it has a URL. *)
Theorem citation_links_exclusive (citation : Citation) :
  (length (links citation) <= 1)%nat
  /\ (forall href, In (DoiLink href) (links citation)
                   <-> exists d, doi citation = Some d /\ d <> []
                                 /\ href = lit "https://doi.org/" ++ d)
  /\ (forall href, In (SourceLink href) (links citation)
                   <-> url citation = Some href /\ href <> []
                       /\ (doi citation = None \/ doi citation = Some [])).
Proof.
  unfold links, present.
  destruct (doi citation) as [[|c d]|], (url citation) as [[|x u]|]; simpl;
    (split; [lia|split; intros href; split]);
    try (intros [H|H]); try (intros (d0 & H1 & H2 & H3));
    try (intros (H1 & H2 & H3));
    try contradiction; try discriminate; try congruence;
    try (injection H as <-); try (injection H1 as <-); subst;
    eauto 6; try (destruct H3; discriminate).
Qed.

Lemma citation_links_doi (citation : Citation) (href : jsstring) :
  In (DoiLink href) (links citation) ->
  exists d, doi citation = Some d /\ href = lit "https://doi.org/" ++ d.
Proof.
  unfold links. intros Hin. apply in_app_or in Hin as [Hin|Hin].
  - destruct (doi citation) as [d|]; [|contradiction].
    destruct (truthy d); [|contradiction].
    destruct Hin as [[= <-]|[]]. now exists d.
  - destruct (url citation) as [u|]; [|contradiction].
    destruct (truthy u && negb (present (doi citation))); [|contradiction].
    destruct Hin as [H|[]]. discriminate.
Qed.

(** The DOI link of a citation, given to the DOI form, is cleaned back
    to the citation's DOI, and fetches it when it has the shape of one. *)
Theorem citation_doi_link_round_trip (citation : Citation) (href : jsstring) :
  In (DoiLink href) (links citation) ->
  doi citation = Some (DoiInput.cleanDoi href)
  /\ (hasDoiShape (DoiInput.cleanDoi href) ->
       DoiInput.handleSubmit href
       = [PreventDefault; SetIsLoading true;
          Call (Api.uploadFromDoi (DoiInput.cleanDoi href))]).
Proof.
  intros Hin. apply citation_links_doi in Hin as (d & Hd & ->).
  rewrite (cleanDoi_app_prefix (lit "https://doi.org/") d)
    by (do 4 right; left; reflexivity).
  split; [exact Hd|]. intros Hshape.
  rewrite (handleSubmit_accepts (lit "https://doi.org/" ++ d));
    rewrite (cleanDoi_app_prefix (lit "https://doi.org/") d)
      by (do 4 right; left; reflexivity); trivial.
Qed.

Lemma citation_doi_link_round_trip_witness :
  doi MoreSamples.citedPaper
  = Some (DoiInput.cleanDoi (lit "https://doi.org/10.5/x"))
  /\ (hasDoiShape (DoiInput.cleanDoi (lit "https://doi.org/10.5/x")) ->
       DoiInput.handleSubmit (lit "https://doi.org/10.5/x")
       = [PreventDefault; SetIsLoading true;
          Call (Api.uploadFromDoi (DoiInput.cleanDoi (lit "https://doi.org/10.5/x")))]).
Proof.
  apply (citation_doi_link_round_trip MoreSamples.citedPaper
           (lit "https://doi.org/10.5/x")).
  left. reflexivity.
Defined.

Example citedPaper_links :
  links MoreSamples.citedPaper = [DoiLink (lit "https://doi.org/10.5/x")].
Proof. reflexivity. Qed.

End CitationLinks.

(** ** The document summary *)

Section DocumentSummary.

Import JS HomePageState.

Lemma length_lit_dots : length (lit "...") = 3%nat.
Proof. reflexivity. Qed.

(** The abstract and the claims of the summary are shown whole up to
    300 and 150 code units, and otherwise cut to that many followed by
    three dots; what is shown never exceeds 303 and 153 code units. *)
Theorem summary_texts_bounded (t : jsstring) :
  ((length (abstractShown t) <= 303)%nat
   /\ ((length t <= 300)%nat -> abstractShown t = t)
   /\ ((300 < length t)%nat ->
        length (abstractShown t) = 303%nat
        /\ exists cut, t = firstn 300 t ++ cut
                        /\ abstractShown t = firstn 300 t ++ lit "..."))
  /\ ((length (claimShown t) <= 153)%nat
      /\ ((length t <= 150)%nat -> claimShown t = t)
      /\ ((150 < length t)%nat ->
           length (claimShown t) = 153%nat
           /\ exists cut, t = firstn 150 t ++ cut
                           /\ claimShown t = firstn 150 t ++ lit "...")).
Proof.
  unfold abstractShown, claimShown. split.
  - destruct (Nat.ltb_spec 300 (length t)) as [Hlong|Hshort].
    + assert (Hlen : length (firstn 300 t ++ lit "...") = 303%nat).
      { rewrite length_app, length_firstn, length_lit_dots. lia. }
      rewrite Hlen. split; [lia|]. split; [lia|]. intros _. split; [reflexivity|].
      exists (skipn 300 t). split; [now rewrite firstn_skipn|reflexivity].
    + split; [lia|]. split; [reflexivity|lia].
  - destruct (Nat.ltb_spec 150 (length t)) as [Hlong|Hshort].
    + assert (Hlen : length (firstn 150 t ++ lit "...") = 153%nat).
      { rewrite length_app, length_firstn, length_lit_dots. lia. }
      rewrite Hlen. split; [lia|]. split; [lia|]. intros _. split; [reflexivity|].
      exists (skipn 150 t). split; [now rewrite firstn_skipn|reflexivity].
    + split; [lia|]. split; [reflexivity|lia].
Qed.

(** Of the extracted claims the summary lists the first three, and
    counts the others in one more line, which is there only when there
    are others: what is listed and what is counted add up to all. *)
Theorem claims_shown_add_up (extracted_claims : list jsstring) :
  let '(items, more) := claimsShown extracted_claims in
  length items = Nat.min 3 (length extracted_claims)
  /\ (more = None <-> (length extracted_claims <= 3)%nat)
  /\ (forall n, more = Some n ->
                 (0 < n)%nat /\ (length items + n)%nat = length extracted_claims)
  /\ (forall i item, nth_error items i = Some item ->
                      exists claim, nth_error extracted_claims i = Some claim
                                    /\ item = claimShown claim).
Proof.
  unfold claimsShown.
  assert (Hlen : length (map claimShown (firstn 3 extracted_claims))
                 = Nat.min 3 (length extracted_claims))
    by now rewrite length_map, length_firstn.
  split; [exact Hlen|]. rewrite Hlen.
  destruct (Nat.ltb_spec 3 (length extracted_claims)) as [Hmany|Hfew].
  - split; [split; [discriminate|lia]|]. split.
    + intros n [= <-]. lia.
    + intros i item Hi. rewrite nth_error_map in Hi.
      destruct (nth_error (firstn 3 extracted_claims) i) as [claim|] eqn:Hc;
        [|discriminate].
      injection Hi as <-. exists claim. split; [|reflexivity].
      rewrite nth_error_firstn in Hc.
      destruct (Nat.ltb i 3); [exact Hc|discriminate].
  - split; [split; [lia|reflexivity]|]. split; [discriminate|].
    intros i item Hi. rewrite nth_error_map in Hi.
    destruct (nth_error (firstn 3 extracted_claims) i) as [claim|] eqn:Hc;
      [|discriminate].
    injection Hi as <-. exists claim. split; [|reflexivity].
    rewrite nth_error_firstn in Hc.
    destruct (Nat.ltb i 3); [exact Hc|discriminate].
Qed.

End DocumentSummary.

(** ** The home page *)

Section HomePageFacts.

Import JS UI Spec PageSpec HomePageState.

Variable canParse : jsstring -> bool.
Variable numberToString : Z -> jsstring.

Abbreviation step := (HomePageState.step canParse numberToString).
Abbreviation run := (HomePageState.run canParse numberToString).

Lemma requests_app (es1 es2 : list Effect) :
  requests (es1 ++ es2) = requests es1 ++ requests es2.
Proof. unfold requests. apply flat_map_app. Qed.

Lemma toastErrors_app (es1 es2 : list Effect) :
  toastErrors (es1 ++ es2) = toastErrors es1 ++ toastErrors es2.
Proof. unfold toastErrors. apply flat_map_app. Qed.

(** The page forwards the requests of its children untouched. *)
Lemma requests_performAll (es : list Effect) :
  forall st, requests (snd (performAll st es)) = requests es.
Proof.
  induction es as [|e es IH]; intros st; simpl; [reflexivity|].
  destruct (perform st e) as [st1 out1] eqn:Hp.
  specialize (IH st1). destruct (performAll st1 es) as [st2 out2].
  simpl in *. rewrite requests_app, IH.
  destruct e; simpl in Hp; injection Hp as <- <-; reflexivity.
Qed.

(** *** The three upload forms and the claim form, by cases *)

Lemma onDrop_shape (acceptedFiles : list Api.File) :
  FileUpload.onDrop acceptedFiles = []
  \/ (exists msg, In msg validationMessages
                  /\ FileUpload.onDrop acceptedFiles = [OnError msg])
  \/ (exists file, acceptable file
                   /\ FileUpload.onDrop acceptedFiles
                      = [SetIsLoading true; Call (Api.PostUploadFile file)]).
Proof.
  destruct acceptedFiles as [|file others]; [now left|right].
  unfold FileUpload.onDrop, acceptable.
  destruct (FileUpload.includes FileUpload.allowedTypes (Api.type file)) eqn:Ht;
    cbn [negb]; [|left; eexists; split; [|reflexivity]; now left].
  apply includes_allowedTypes in Ht. rewrite size_limit.
  destruct (N.ltb_spec 52428800 (Api.size file)) as [Hbig|Hok].
  - left. eexists; split; [|reflexivity]. right; now left.
  - right. exists file. now repeat split.
Qed.

(** What one action of the user does to the page: nothing; or a
    validation message, no request, and the loading flag down; or, from
    an idle page, one validated request and the loading flag up. *)
Lemma user_step_shape (st : State) (ev : Event) :
  isUserEvent ev = true ->
  let '(st1, out) := step st ev in
  (st1 = st /\ requests out = [] /\ toastErrors out = [])
  \/ (st1 = {| document := document st; isLoading := false |}
      /\ requests out = []
      /\ exists msg, toastErrors out = [msg] /\ In msg validationMessages)
  \/ (isLoading st = false
      /\ st1 = {| document := document st; isLoading := true |}
      /\ toastErrors out = []
      /\ exists r, requests out = [r] /\ validated canParse r
                   /\ forall did c, r = Api.PostAssessment did c ->
                                     exists d, document st = Some d
                                               /\ did = Types.doc_id d).
Proof.
  destruct ev as [files|url|doi|claim|from result|result]; try discriminate;
    intros _; cbn [HomePageState.step].
  - destruct (isLoading st) eqn:Hl; [now left|].
    destruct (onDrop_shape files) as [->|[(msg & Hm & ->)|(file & Hok & ->)]].
    + now left.
    + right; left. cbn. split_refl. now exists msg.
    + right; right. cbn. split_refl.
      exists (Api.PostUploadFile file). split_refl. split; [exact Hok|].
      intros did c [=].
  - unfold UrlInput.submitDisabled, UrlInput.handleSubmit.
    destruct (isLoading st) eqn:Hl; [now left|]. cbn [orb].
    destruct (truthy (trim url)) eqn:Ht; cbn [negb]; [|now left].
    destruct (canParse url) eqn:Hp; cbn.
    + right; right. split_refl.
      exists (Api.PostUploadUrl url). split_refl. split.
      * split; [exact Hp|now apply truthy_true].
      * intros did c [=].
    + right; left. split_refl. eexists; split; [reflexivity|].
      do 2 right. now left.
  - unfold DoiInput.submitDisabled, DoiInput.handleSubmit.
    destruct (isLoading st) eqn:Hl; [now left|]. cbn [orb].
    destruct (truthy (trim doi)) eqn:Ht; cbn [negb]; [|now left].
    destruct (DoiInput.test DoiInput.doiPattern (DoiInput.cleanDoi doi)) eqn:Hp; cbn.
    + right; right. split_refl.
      exists (Api.PostUploadDoi (DoiInput.cleanDoi doi)). split_refl. split.
      * now apply doiPattern_shape.
      * intros did c [=].
    + right; left. split_refl. eexists; split; [reflexivity|].
      do 3 right. now left.
  - unfold HomePage.submitClaimForm, ClaimInput.submitDisabled,
      ClaimInput.handleSubmit.
    destruct (document st) as [d|] eqn:Hd; [|now left].
    destruct (isLoading st) eqn:Hl; [now left|]. cbn [orb].
    destruct (truthy (trim claim)) eqn:Ht; cbn [negb]; [|now left].
    cbn. rewrite ?Hd. right; right. split_refl.
    exists (Api.PostAssessment (Types.doc_id d) (trim claim)). split_refl. split.
    + split; [now apply truthy_true|apply trim_idempotent].
    + intros did c [= <- _]. now exists d.
Qed.

(** What the settling of a request does to the page. *)
Lemma settle_step_shape (st : State) (ev : Event) :
  isUserEvent ev = false ->
  let '(st1, out) := step st ev in
  requests out = []
  /\ ((exists from d, ev = UploadSettled from (inl d)
                      /\ st1 = {| document := Some d; isLoading := false |}
                      /\ toastErrors out = [])
      \/ (exists id, ev = AssessmentSettled (inl id)
                     /\ st1 = st /\ toastErrors out = [])
      \/ (st1 = {| document := document st; isLoading := false |}
          /\ lastUpload [ev] = None
          /\ exists detail fallback,
               fallback <> [] /\ toastErrors out = [orElse detail fallback])).
Proof.
  destruct ev as [files|url|doi|claim|from result|result]; try discriminate;
    intros _; cbn [HomePageState.step].
  - destruct from;
      (destruct result as [d|detail]; cbn; (split; [reflexivity|]);
       [left; eexists _, d; now split_refl
       |right; right; split_refl; exists detail; eexists;
        (split; [|reflexivity]); discriminate]).
  - destruct result as [id|detail]; cbn; (split; [reflexivity|]).
    + right; left. now exists id.
    + right; right. split_refl. exists detail. eexists.
      split; [|reflexivity]. discriminate.
Qed.

(** *** Runs of the page *)



Lemma step_requests_validated (st : State) (ev : Event) :
  Forall (validated canParse) (requests (snd (step st ev))).
Proof.
  destruct (isUserEvent ev) eqn:Hu.
  - pose proof (user_step_shape st ev Hu) as H.
    destruct (step st ev) as [st1 out]. cbn [snd].
    destruct H as [(_ & -> & _)|[(_ & -> & _)|(_ & _ & _ & r & -> & Hr & _)]];
      repeat constructor; assumption.
  - pose proof (settle_step_shape st ev Hu) as H.
    destruct (step st ev) as [st1 out]. cbn [snd].
    destruct H as [-> _]. constructor.
Qed.

(** Every request the home page sends has passed the validation of the
    form it comes from: an acceptable file, a parsable and non-blank
    URL, a string of DOI shape, a stripped non-empty claim. It sends
    nothing else. *)
Theorem home_requests_validated (evs : list Event) (st : State) :
  Forall (validated canParse) (requests (snd (run st evs))).
Proof.
  revert st. induction evs as [|ev evs IH]; intros st;
    cbn [HomePageState.run]; [constructor|].
  pose proof (step_requests_validated st ev) as Hstep.
  destruct (step st ev) as [st1 es1]. specialize (IH st1).
  destruct (run st1 evs) as [st2 es2]. cbn [snd] in *.
  rewrite requests_app. apply Forall_app. now split.
Qed.


Lemma step_document (st : State) (ev : Event) :
  document (fst (step st ev))
  = match lastUpload [ev] with Some d => Some d | None => document st end.
Proof.
  destruct (isUserEvent ev) eqn:Hu.
  - pose proof (user_step_shape st ev Hu) as H.
    destruct (step st ev) as [st1 out]. cbn [fst].
    assert (Hnone : lastUpload [ev] = None) by (destruct ev; try discriminate; reflexivity).
    rewrite Hnone.
    destruct H as [(-> & _)|[(-> & _)|(_ & -> & _)]]; reflexivity.
  - pose proof (settle_step_shape st ev Hu) as H.
    destruct (step st ev) as [st1 out]. cbn [fst].
    destruct H as [_ [(from & d & -> & -> & _)
                     |[(id & -> & -> & _)|(-> & -> & _)]]]; reflexivity.
Qed.

(** The document of the page is the one of the last upload that
    succeeded: a failed upload, a validation error or a failed
    assessment never discards it. *)
Theorem home_document_is_last_upload (evs : list Event) (st : State) :
  document (fst (run st evs))
  = match lastUpload evs with Some d => Some d | None => document st end.
Proof.
  revert st. induction evs as [|ev evs IH]; intros st; [reflexivity|].
  cbn [HomePageState.run]. pose proof (step_document st ev) as Hstep.
  destruct (step st ev) as [st1 es1]. specialize (IH st1).
  destruct (run st1 evs) as [st2 es2]. cbn [fst] in *.
  rewrite IH, Hstep. cbn [lastUpload].
  destruct (lastUpload evs); [reflexivity|].
  now destruct ev as [| | | |from [d|detail]|].
Qed.

Lemma step_assessment_request (st : State) (ev : Event) (did : Z) (c : jsstring) :
  In (Api.PostAssessment did c) (requests (snd (step st ev))) ->
  exists d, document st = Some d /\ did = Types.doc_id d.
Proof.
  destruct (isUserEvent ev) eqn:Hu.
  - pose proof (user_step_shape st ev Hu) as H.
    destruct (step st ev) as [st1 out]. cbn [snd].
    destruct H as [(_ & -> & _)|[(_ & -> & _)|(_ & _ & _ & r & -> & _ & Hr)]];
      try contradiction.
    intros [Heq|[]]. now apply (Hr did c).
  - pose proof (settle_step_shape st ev Hu) as H.
    destruct (step st ev) as [st1 out]. cbn [snd].
    destruct H as [-> _]. contradiction.
Qed.

Lemma run_assessment_request (evs : list Event) (st : State) (did : Z) (c : jsstring) :
  In (Api.PostAssessment did c) (requests (snd (run st evs))) ->
  (exists d, document st = Some d /\ did = Types.doc_id d)
  \/ (exists from d, In (UploadSettled from (inl d)) evs /\ did = Types.doc_id d).
Proof.
  revert st. induction evs as [|ev evs IH]; intros st; [contradiction|].
  cbn [HomePageState.run].
  pose proof (step_assessment_request st ev did c) as Hstep.
  pose proof (step_document st ev) as Hdoc.
  destruct (step st ev) as [st1 es1]. specialize (IH st1).
  destruct (run st1 evs) as [st2 es2]. cbn [fst snd] in *.
  rewrite requests_app. intros Hin. apply in_app_or in Hin as [Hin|Hin].
  - left. now apply Hstep.
  - destruct (IH Hin) as [(d & Hd & ->)|(from & d & Hev & ->)].
    + rewrite Hdoc in Hd. cbn [lastUpload] in Hd.
      destruct ev as [| | | |from [d'|detail]|]; try (left; now exists d).
      injection Hd as <-. right. exists from, d'. split; [now left|reflexivity].
    + right. exists from, d. split; [now right|reflexivity].
Qed.

(** From a fresh page, an assessment is only ever requested for a
    document that an upload returned before. *)
Theorem assessment_needs_uploaded_document (evs : list Event) (did : Z) (c : jsstring) :
  In (Api.PostAssessment did c) (requests (snd (run initial evs))) ->
  exists from d, In (UploadSettled from (inl d)) evs /\ did = Types.doc_id d.
Proof.
  intros Hin. apply run_assessment_request in Hin as [(d & Hd & _)|H];
    [discriminate|exact H].
Qed.

Lemma validationMessages_spec (msg : jsstring) :
  In msg validationMessages -> msg <> [] /\ ~ In msg missingInputMessages.
Proof.
  unfold validationMessages, missingInputMessages.
  intros [<-|[<-|[<-|[<-|[]]]]]; (split; [discriminate|]);
    intros [H|[H|[H|[]]]]; discriminate.
Qed.

Lemma orElse_not_blank (detail : option jsstring) (fallback : jsstring) :
  fallback <> [] -> orElse detail fallback <> [].
Proof. intros Hf. destruct detail as [[|c d]|]; simpl; [assumption|discriminate|assumption]. Qed.

Lemma step_toasts_not_blank (st : State) (ev : Event) :
  Forall (fun msg => msg <> []) (toastErrors (snd (step st ev))).
Proof.
  destruct (isUserEvent ev) eqn:Hu.
  - pose proof (user_step_shape st ev Hu) as H.
    destruct (step st ev) as [st1 out]. cbn [snd].
    destruct H as [(_ & _ & ->)|[(_ & _ & msg & -> & Hm)|(_ & _ & -> & _)]];
      repeat constructor. now apply validationMessages_spec.
  - pose proof (settle_step_shape st ev Hu) as H.
    destruct (step st ev) as [st1 out]. cbn [snd].
    destruct H as [_ [(from & d & _ & _ & ->)
                     |[(id & _ & _ & ->)|(_ & _ & detail & fb & Hfb & ->)]]];
      repeat constructor. now apply orElse_not_blank.
Qed.

(** No error toast of the home page is blank: a rejected request is
    reported with the detail of the server or, when that is missing or
    empty, with a fixed message. *)
Theorem home_error_toasts_not_blank (evs : list Event) (st : State) :
  Forall (fun msg => msg <> []) (toastErrors (snd (run st evs))).
Proof.
  revert st. induction evs as [|ev evs IH]; intros st;
    cbn [HomePageState.run]; [constructor|].
  pose proof (step_toasts_not_blank st ev) as Hstep.
  destruct (step st ev) as [st1 es1]. specialize (IH st1).
  destruct (run st1 evs) as [st2 es2]. cbn [snd] in *.
  rewrite toastErrors_app. apply Forall_app. now split.
Qed.

(** The guards against a missing input never fire on the page: the
    forms cannot be submitted blank and the claim form is not there
    without a document, so the only errors the user's own actions raise
    are the four validation messages. *)
Theorem missing_input_guards_unreachable (evs : list Event) (st : State) (msg : jsstring) :
  Forall (fun ev => isUserEvent ev = true) evs ->
  In msg (toastErrors (snd (run st evs))) ->
  In msg validationMessages /\ ~ In msg missingInputMessages.
Proof.
  intros Hu. revert st. induction Hu as [|ev evs Hev Hevs IH]; intros st;
    cbn [HomePageState.run]; [contradiction|].
  pose proof (user_step_shape st ev Hev) as Hstep.
  destruct (step st ev) as [st1 es1]. specialize (IH st1).
  destruct (run st1 evs) as [st2 es2]. cbn [snd] in *.
  rewrite toastErrors_app. intros Hin. apply in_app_or in Hin as [Hin|Hin];
    [|now apply IH].
  destruct Hstep as [(_ & _ & Ht)|[(_ & _ & m & Ht & Hm)|(_ & _ & Ht & _)]];
    rewrite Ht in Hin; try contradiction.
  destruct Hin as [<-|[]]. split; [assumption|now apply validationMessages_spec].
Qed.

End HomePageFacts.

Section HomePageSessions.

Import JS UI.


Lemma assessment_needs_uploaded_document_witness :
  exists from d,
    In (HomePageState.UploadSettled from (inl d))
       [HomePageState.UploadSettled HomePageState.FromDoi (inl MoreSamples.uploaded);
        HomePageState.SubmitClaim (lit " Exercise helps ")]
    /\ 3%Z = Types.doc_id d.
Proof.
  apply (assessment_needs_uploaded_document (fun _ => true) (fun _ => []) _ 3
           (lit "Exercise helps")).
  left. reflexivity.
Defined.

Lemma missing_input_guards_unreachable_witness :
  In (lit "Please enter a valid DOI (e.g., 10.1000/123456)") PageSpec.validationMessages
  /\ ~ In (lit "Please enter a valid DOI (e.g., 10.1000/123456)")
         PageSpec.missingInputMessages.
Proof.
  apply (missing_input_guards_unreachable (fun _ => true) (fun _ => [])
           [HomePageState.SubmitDoi (lit "doi.org/11.5/x")] HomePageState.initial).
  - repeat constructor.
  - left. reflexivity.
Defined.

Example home_page_session :
  HomePageState.run (fun _ => true) (fun _ => lit "12") HomePageState.initial
    [HomePageState.SubmitClaim (lit "too early");
     HomePageState.Drop [Samples.notes];
     HomePageState.SubmitDoi (lit "https://doi.org/10.5/x");
     HomePageState.SubmitUrl (lit "https://example.org/paper");
     HomePageState.UploadSettled HomePageState.FromDoi (inl MoreSamples.uploaded);
     HomePageState.SubmitClaim (lit " Exercise helps ");
     HomePageState.AssessmentSettled (inl 12%Z)]
  = ({| HomePageState.document := Some MoreSamples.uploaded;
        HomePageState.isLoading := true |},
     [ToastError (lit "Please upload a PDF or DOCX file");
      PreventDefault; Call (Api.PostUploadDoi (lit "10.5/x"));
      ToastSuccess (lit "Document processed successfully!");
      PreventDefault; Call (Api.PostAssessment 3 (lit "Exercise helps"));
      Navigate (lit "/assessment/12")]).
Proof. reflexivity. Qed.

End HomePageSessions.

(** ** The assessment page, further *)

Section AssessmentPageRuns.

Import JS UI Spec PageSpec AssessmentPage.

Variable origin : jsstring.

Abbreviation pstep := (AssessmentPage.step origin).
Abbreviation prun := (AssessmentPage.run origin).

Lemma share_scores (st : State) : feedbackScores (handleShare origin st) = [].
Proof.
  unfold handleShare. destruct (assessment st) as [a|]; [|reflexivity].
  destruct (Types.share_id a) as [sid|]; [|reflexivity].
  now destruct (truthy sid).
Qed.

Lemma buttons_need_no_feedback (st : State) :
  feedback st <> None -> feedbackButtonsEnabled st = false.
Proof.
  unfold feedbackButtonsEnabled. destruct (view st), (feedback st); congruence.
Qed.

Lemma buttons_need_idle (st : State) :
  isSubmittingFeedback st = true -> feedbackButtonsEnabled st = false.
Proof.
  unfold feedbackButtonsEnabled. intros ->. now destruct (view st), (feedback st).
Qed.

(** What one event does to the feedback: either it sends none, or it
    is a click that sends one score and marks the page as submitting. *)
Lemma step_feedback_shape (st : State) (ev : Event) :
  (feedbackScores (snd (pstep st ev)) = []
   /\ (feedback st <> None -> feedback (fst (pstep st ev)) <> None)
   /\ (feedbackPending ev = true ->
        isSubmittingFeedback (fst (pstep st ev)) = isSubmittingFeedback st))
  \/ (feedbackButtonsEnabled st = true
      /\ isSubmittingFeedback (fst (pstep st ev)) = true
      /\ exists score, feedbackScores (snd (pstep st ev)) = [score]).
Proof.
  destruct ev as [result|detail| |url written| | |value|score rejected];
    cbn [AssessmentPage.step].
  - left. now split_refl.
  - left. now split_refl.
  - left. destruct (shareButtonRendered st); cbn [fst snd];
      rewrite ?share_scores; now split_refl.
  - left. destruct written; now split_refl.
  - destruct (feedbackButtonsEnabled st) eqn:He; [|left; now split_refl].
    unfold handleFeedback. destruct (assessment st); [right|left; now split_refl].
    split_refl. now exists 1%Z.
  - destruct (feedbackButtonsEnabled st) eqn:He; [|left; now split_refl].
    unfold handleFeedback. destruct (assessment st); [right|left; now split_refl].
    split_refl. now exists (-1)%Z.
  - left. destruct (feedbackButtonsEnabled st); now split_refl.
  - left. destruct rejected; cbn; (split; [reflexivity|]);
      (split; [|discriminate]); [trivial|discriminate].
Qed.

(** Once a feedback has been recorded, the page never sends another. *)
Theorem feedback_recorded_once (evs : list Event) (st : State) :
  feedback st <> None -> feedbackScores (snd (prun st evs)) = [].
Proof.
  revert st. induction evs as [|ev evs IH]; intros st Hf; [reflexivity|].
  cbn [AssessmentPage.run].
  pose proof (step_feedback_shape st ev) as Hstep.
  destruct (pstep st ev) as [st1 es1]. specialize (IH st1).
  destruct (prun st1 evs) as [st2 es2]. cbn [fst snd] in *.
  rewrite feedbackScores_app.
  destruct Hstep as [(-> & Hkeep & _)|(He & _)].
  - now apply IH, Hkeep.
  - rewrite (buttons_need_no_feedback st Hf) in He. discriminate.
Qed.

Lemma run_while_submitting (evs : list Event) (st : State) :
  isSubmittingFeedback st = true ->
  Forall (fun ev => feedbackPending ev = true) evs ->
  feedbackScores (snd (prun st evs)) = [].
Proof.
  intros Hs Hp. revert st Hs. induction Hp as [|ev evs Hev _ IH]; intros st Hs;
    [reflexivity|].
  cbn [AssessmentPage.run].
  pose proof (step_feedback_shape st ev) as Hstep.
  destruct (pstep st ev) as [st1 es1]. specialize (IH st1).
  destruct (prun st1 evs) as [st2 es2]. cbn [fst snd] in *.
  rewrite feedbackScores_app.
  destruct Hstep as [(-> & _ & Hkeep)|(He & _)].
  - apply IH. now rewrite Hkeep.
  - rewrite (buttons_need_idle st Hs) in He. discriminate.
Qed.

(** While the answer to a feedback request is awaited, no second one is
    sent: between two settlings the page sends at most one feedback. *)
Theorem one_feedback_at_a_time (evs : list Event) (st : State) :
  Forall (fun ev => feedbackPending ev = true) evs ->
  (length (feedbackScores (snd (prun st evs))) <= 1)%nat.
Proof.
  intros Hp. revert st. induction Hp as [|ev evs Hev Hevs IH]; intros st;
    [cbn; lia|].
  cbn [AssessmentPage.run].
  pose proof (step_feedback_shape st ev) as Hstep.
  destruct (pstep st ev) as [st1 es1]. cbn [fst snd] in Hstep.
  destruct Hstep as [(Hnone & _)|(_ & Hs & score & Hone)].
  - specialize (IH st1). destruct (prun st1 evs) as [st2 es2]. cbn [snd] in *.
    now rewrite feedbackScores_app, Hnone.
  - pose proof (run_while_submitting evs st1 Hs Hevs) as Hrest.
    destruct (prun st1 evs) as [st2 es2]. cbn [snd] in *.
    rewrite feedbackScores_app, Hone, Hrest. cbn. lia.
Qed.

Lemma step_assessment (st : State) (ev : Event) :
  assessment (fst (pstep st ev))
  = match ev with AssessmentLoaded a => Some a | _ => assessment st end.
Proof.
  destruct ev as [result|detail| |url written| | |value|score rejected];
    cbn [AssessmentPage.step]; try reflexivity.
  - now destruct (shareButtonRendered st).
  - destruct (feedbackButtonsEnabled st); [|reflexivity].
    unfold handleFeedback. destruct (assessment st) eqn:Ha; cbn; congruence.
  - destruct (feedbackButtonsEnabled st); [|reflexivity].
    unfold handleFeedback. destruct (assessment st) eqn:Ha; cbn; congruence.
  - now destruct (feedbackButtonsEnabled st).
  - now destruct rejected.
Qed.

Lemma handleFeedback_request (st : State) (score : Z) (r : Api.Request) :
  In r (requests (snd (handleFeedback st score))) ->
  exists a comment,
    assessment st = Some a
    /\ r = Api.PostFeedback (Types.id a) score comment
    /\ comment <> Some []
    /\ (comment = None <-> feedbackComment st = [])
    /\ (forall c, comment = Some c -> c = feedbackComment st).
Proof.
  unfold handleFeedback. destruct (assessment st) as [a|]; [|contradiction].
  intros [<-|[]]. exists a. eexists. split; [reflexivity|]. split; [reflexivity|].
  destruct (feedbackComment st) as [|c t]; cbn.
  - repeat split; try discriminate; trivial.
  - repeat split; try discriminate; try congruence.
Qed.

Lemma step_request (st : State) (ev : Event) (r : Api.Request) :
  In r (requests (snd (pstep st ev))) ->
  exists a score comment,
    assessment st = Some a
    /\ r = Api.PostFeedback (Types.id a) score comment
    /\ comment <> Some []
    /\ (comment = None <-> feedbackComment st = [])
    /\ (forall c, comment = Some c -> c = feedbackComment st).
Proof.
  destruct ev as [result|detail| |url written| | |value|score rejected];
    cbn [AssessmentPage.step]; try contradiction.
  - destruct (shareButtonRendered st); [|contradiction]. cbn [snd].
    destruct (share_sends_no_request origin st [] true) as [-> _]. contradiction.
  - destruct written; contradiction.
  - destruct (feedbackButtonsEnabled st); [|contradiction].
    intros H. apply handleFeedback_request in H as (a & c & H). now exists a, 1%Z, c.
  - destruct (feedbackButtonsEnabled st); [|contradiction].
    intros H. apply handleFeedback_request in H as (a & c & H). now exists a, (-1)%Z, c.
  - destruct (feedbackButtonsEnabled st); contradiction.
  - destruct rejected; contradiction.
Qed.

Lemma run_request (evs : list Event) (st : State) (r : Api.Request) :
  In r (requests (snd (prun st evs))) ->
  exists a score comment,
    r = Api.PostFeedback (Types.id a) score comment
    /\ comment <> Some []
    /\ (assessment st = Some a \/ In (AssessmentLoaded a) evs).
Proof.
  revert st. induction evs as [|ev evs IH]; intros st; [contradiction|].
  cbn [AssessmentPage.run].
  pose proof (step_request st ev r) as Hstep.
  pose proof (step_assessment st ev) as Ha.
  destruct (pstep st ev) as [st1 es1]. specialize (IH st1).
  destruct (prun st1 evs) as [st2 es2]. cbn [fst snd] in *.
  unfold requests in *. rewrite flat_map_app.
  intros Hin. apply in_app_or in Hin as [Hin|Hin].
  - destruct (Hstep Hin) as (a & score & comment & Hs & -> & Hc & _).
    exists a, score, comment. repeat split; auto.
  - destruct (IH Hin) as (a & score & comment & -> & Hc & [Hs|Hl]).
    + exists a, score, comment. split; [reflexivity|]. split; [exact Hc|].
      rewrite Ha in Hs. destruct ev; auto.
      injection Hs as <-. right. now left.
    + exists a, score, comment. split; [reflexivity|]. split; [exact Hc|].
      right. now right.
Qed.

(** From a fresh page, whatever is sent is a feedback on an assessment
    that was loaded before, and its comment is either absent or not
    empty: an empty comment box is sent as no comment. *)
Theorem feedback_on_loaded_assessment (evs : list Event) (r : Api.Request) :
  In r (requests (snd (prun initial evs))) ->
  exists a score comment,
    In (AssessmentLoaded a) evs
    /\ r = Api.PostFeedback (Types.id a) score comment
    /\ comment <> Some [].
Proof.
  intros Hin. apply run_request in Hin as (a & score & comment & -> & Hc & [Hs|Hl]);
    [discriminate|].
  now exists a, score, comment.
Qed.

(** The comment sent with a feedback is what the comment box holds at
    the click. *)
Theorem feedback_carries_typed_comment (st : State) (value : jsstring) (ev : Event) :
  feedbackButtonsEnabled st = true ->
  ev = ClickHelpful \/ ev = ClickNotHelpful ->
  exists a score,
    assessment st = Some a
    /\ requests (snd (prun st [ChangeComment value; ev]))
       = [Api.PostFeedback (Types.id a) score
            (if truthy value then Some value else None)].
Proof.
  intros He Hev. cbn. rewrite He.
  assert (He' : feedbackButtonsEnabled (setFeedbackComment st value) = true) by exact He.
  unfold feedbackButtonsEnabled, view in He.
  destruct (isLoading st); [discriminate|].
  destruct (assessment st) as [a|] eqn:Ha; [|discriminate].
  destruct Hev as [-> | ->]; cbn; rewrite He'; unfold handleFeedback; cbn; rewrite Ha;
    eexists a, _; (split; [reflexivity|]); reflexivity.
Qed.

End AssessmentPageRuns.

Section AssessmentPageSessions.

Import JS UI Spec.

Lemma feedback_recorded_once_witness :
  feedbackScores
    (snd (AssessmentPage.run Samples.origin
            (AssessmentPage.setFeedback Samples.loadedPage 1)
            [AssessmentPage.ClickNotHelpful; AssessmentPage.ClickHelpful]))
  = [].
Proof.
  apply (feedback_recorded_once Samples.origin). discriminate.
Defined.

Lemma one_feedback_at_a_time_witness :
  (length (feedbackScores
             (snd (AssessmentPage.run Samples.origin Samples.loadedPage
                     [AssessmentPage.ClickHelpful; AssessmentPage.ClickHelpful;
                      AssessmentPage.ClickNotHelpful]))) <= 1)%nat.
Proof.
  apply (one_feedback_at_a_time Samples.origin). repeat constructor.
Defined.

Lemma feedback_on_loaded_assessment_witness :
  exists a score comment,
    In (AssessmentPage.AssessmentLoaded a)
       [AssessmentPage.AssessmentLoaded MoreSamples.sharedAssessment;
        AssessmentPage.ClickNotHelpful]
    /\ Api.PostFeedback 7 (-1) None = Api.PostFeedback (Types.id a) score comment
    /\ comment <> Some [].
Proof.
  apply (feedback_on_loaded_assessment Samples.origin). left. reflexivity.
Defined.

Lemma feedback_carries_typed_comment_witness :
  exists a score,
    AssessmentPage.assessment Samples.loadedPage = Some a
    /\ requests
         (snd (AssessmentPage.run Samples.origin Samples.loadedPage
                 [AssessmentPage.ChangeComment (lit "clear"); AssessmentPage.ClickHelpful]))
       = [Api.PostFeedback (Types.id a) score
            (if truthy (lit "clear") then Some (lit "clear") else None)].
Proof.
  apply (feedback_carries_typed_comment Samples.origin Samples.loadedPage
           (lit "clear") AssessmentPage.ClickHelpful).
  - reflexivity.
  - now left.
Defined.

Example share_then_feedback :
  AssessmentPage.run Samples.origin AssessmentPage.initial
    [AssessmentPage.ClickHelpful;
     AssessmentPage.AssessmentLoaded MoreSamples.sharedAssessment;
     AssessmentPage.ClickShare;
     AssessmentPage.ShareSettled (lit "http://localhost:3000/share/k3x9") false;
     AssessmentPage.ClickNotHelpful;
     AssessmentPage.FeedbackSettled (-1) (Some (Some [])) ;
     AssessmentPage.ClickHelpful]
  = (AssessmentPage.setIsSubmittingFeedback
       (AssessmentPage.setIsLoading
          (AssessmentPage.setAssessment AssessmentPage.initial
             MoreSamples.sharedAssessment) false) true,
     [ClipboardWrite (lit "http://localhost:3000/share/k3x9");
      ExecCommandCopy (lit "http://localhost:3000/share/k3x9");
      ToastSuccess (lit "Share link copied to clipboard!");
      Call (Api.PostFeedback 7 (-1) None);
      ToastError (lit "Failed to submit feedback");
      Call (Api.PostFeedback 7 1 None)]).
Proof. reflexivity. Qed.

End AssessmentPageSessions.
